(** * serverless-go: validation, repository, handlers and response formatting

    A shallow embedding of the request-handling core of the repository, one
    module per Go package:
    - [models]      pkg/models/user.go
    - [validators]  pkg/validators/validators.go, over [regexp]
    - [repository]  pkg/repository/user_repository.go, over [dynamodb] and
                    [dynamodbattribute]
    - [handlers]    pkg/handlers/api_response.go and handlers.go, over [json],
                    [strconv], [http] and [events]
    - [main]        cmd/main.go
    Go strings are byte strings: they are modelled as [string], a list of
    [ascii] bytes, and [len] is [String.length].  A Go function returning a
    value and an [error] returns a pair whose second component is
    [option error], [None] for nil; a nil pointer is [None].  Calls to
    [log.Printf] write to the log only and are left out.

    The file has three parts: the program, the specifications the theorems
    are stated with, and the theorems. *)

From Stdlib Require Import ZArith Ascii String List Bool Lia.
From stdpp Require Import base option list strings sorting gmap.

Local Open Scope string_scope.

(** Go's [error] interface, observed only through [Error()]: the message.
    A nil error is [None]. *)
Definition error := string.

Module errors.
Definition New (msg : string) : option error := Some msg.
End errors.

(* ------------------------------------------------------------------ *)
(** ** pkg/models *)

Module models.
Record User := mkUser {
  Email : string;
  FirstName : string;
  LastName : string
}.

#[global] Instance User_eq_dec : EqDecision User.
Proof. solve_decision. Defined.
End models.

(* ------------------------------------------------------------------ *)
(** ** Regular expressions

    The pattern of the validator uses literals, character classes,
    concatenation, [+], [*], [?], the bounded repetition [{0,n}] and the
    anchors [^ $].  [MatchString] on an anchored pattern decides whether the
    whole text belongs to the language of the pattern.  All classes of the
    pattern are sets of ASCII bytes, so matching byte by byte agrees with
    matching rune by rune: a byte above 0x7F belongs to no class. *)

Module regexp.

Inductive Regexp : Type :=
| Fail                                (* no text *)
| Eps                                 (* the empty text *)
| Class (p : ascii -> bool)           (* one byte of a class *)
| Cat (r1 r2 : Regexp)
| Alt (r1 r2 : Regexp)
| Star (r : Regexp).

Definition Lit (c : ascii) : Regexp := Class (Ascii.eqb c).
Definition Plus (r : Regexp) : Regexp := Cat r (Star r).
Definition Opt (r : Regexp) : Regexp := Alt r Eps.

(** [r{0,n}] *)
Fixpoint UpTo (n : nat) (r : Regexp) : Regexp :=
  match n with
  | O => Eps
  | S n' => Opt (Cat r (UpTo n' r))
  end.

(** The language of a pattern. *)
Inductive Matches : Regexp -> list ascii -> Prop :=
| MEps : Matches Eps []
| MClass p c : p c = true -> Matches (Class p) [c]
| MCat r1 r2 s1 s2 :
    Matches r1 s1 -> Matches r2 s2 -> Matches (Cat r1 r2) (s1 ++ s2)%list
| MAltL r1 r2 s : Matches r1 s -> Matches (Alt r1 r2) s
| MAltR r1 r2 s : Matches r2 s -> Matches (Alt r1 r2) s
| MStarNil r : Matches (Star r) []
| MStarCons r s1 s2 :
    Matches r s1 -> Matches (Star r) s2 -> Matches (Star r) (s1 ++ s2)%list.

(** The matcher: Brzozowski derivatives. *)
Fixpoint nullable (r : Regexp) : bool :=
  match r with
  | Fail => false
  | Eps => true
  | Class _ => false
  | Cat r1 r2 => nullable r1 && nullable r2
  | Alt r1 r2 => nullable r1 || nullable r2
  | Star _ => true
  end.

Fixpoint deriv (c : ascii) (r : Regexp) : Regexp :=
  match r with
  | Fail => Fail
  | Eps => Fail
  | Class p => if p c then Eps else Fail
  | Cat r1 r2 =>
      if nullable r1 then Alt (Cat (deriv c r1) r2) (deriv c r2)
      else Cat (deriv c r1) r2
  | Alt r1 r2 => Alt (deriv c r1) (deriv c r2)
  | Star r1 => Cat (deriv c r1) (Star r1)
  end.

Fixpoint matches (r : Regexp) (s : list ascii) : bool :=
  match s with
  | [] => nullable r
  | c :: s' => matches (deriv c r) s'
  end.

(** [Regexp.MatchString] for a pattern anchored with [^] and [$]. *)
Definition MatchString (r : Regexp) (s : string) : bool :=
  matches r (list_ascii_of_string s).

End regexp.

(* ------------------------------------------------------------------ *)
(** ** pkg/validators *)

Module validators.
Import regexp models.

Definition in_range (lo hi c : ascii) : bool :=
  ((N_of_ascii lo <=? N_of_ascii c) && (N_of_ascii c <=? N_of_ascii hi))%N.

Definition one_of (cs : string) (c : ascii) : bool :=
  existsb (Ascii.eqb c) (list_ascii_of_string cs).

(** [[a-zA-Z0-9]] *)
Definition alnum (c : ascii) : bool :=
  in_range "a" "z" c || in_range "A" "Z" c || in_range "0" "9" c.

(** [[a-zA-Z0-9-]] *)
Definition alnum_hyphen (c : ascii) : bool :=
  alnum c || one_of "-" c.

(** [[a-zA-Z0-9.!#$%&'*+/=?^_`{|}~-]] *)
Definition local_char (c : ascii) : bool :=
  alnum c || one_of ".!#$%&'*+/=?^_`{|}~-" c.

(** [[a-zA-Z0-9](?:[a-zA-Z0-9-]{0,61}[a-zA-Z0-9])?] *)
Definition label : Regexp :=
  Cat (Class alnum) (Opt (Cat (UpTo 61 (Class alnum_hyphen)) (Class alnum))).

(** [^[a-zA-Z0-9.!#$%&'*+/=?^_`{|}~-]+@label(?:\.label)*$] *)
Definition rxEmail : Regexp :=
  Cat (Plus (Class local_char))
    (Cat (Lit "@")
      (Cat label (Star (Cat (Lit ".") label)))).

Definition IsEmailValid (email : string) : bool :=
  if (String.length email <? 3)%nat
     || (254 <? String.length email)%nat
     || negb (MatchString rxEmail email)
  then false
  else true.

Definition ValidateUser (user : User) : option error :=
  if String.eqb (Email user) "" then errors.New "email is required"
  else if negb (IsEmailValid (Email user)) then errors.New "invalid email format"
  else if String.eqb (FirstName user) "" then errors.New "first name is required"
  else if String.eqb (LastName user) "" then errors.New "last name is required"
  else None.

End validators.

(* ------------------------------------------------------------------ *)
(** ** unicode/utf8 and encoding/json (the encoder)

    [json.Marshal] is modelled on the Go values the handlers hand to
    [apiResponse].  String literals follow the encoder of encoding/json with
    HTML escaping on (the default of [Marshal]), Go 1.22 or later. *)

Module utf8.

Definition between (lo hi n : N) : bool := ((lo <=? n) && (n <=? hi))%N.

(** For a leading byte of a multi-byte encoding: the width of the encoding
    and the range accepted for the second byte. *)
Definition lead (b : N) : option (nat * (N * N)) :=
  if between 194 223 b then Some (2%nat, (128, 191)%N)
  else if (b =? 224)%N then Some (3%nat, (160, 191)%N)
  else if between 225 236 b || between 238 239 b then Some (3%nat, (128, 191)%N)
  else if (b =? 237)%N then Some (3%nat, (128, 159)%N)
  else if (b =? 240)%N then Some (4%nat, (144, 191)%N)
  else if between 241 243 b then Some (4%nat, (128, 191)%N)
  else if (b =? 244)%N then Some (4%nat, (128, 143)%N)
  else None.

(** A continuation byte. *)
Definition cont (b : N) : bool := between 128 191 b.

(** The number of runes of a text: a valid encoding counts for one, and
    so does every byte that starts none. *)
Fixpoint RuneCountInString (s : string) : nat :=
  match s with
  | EmptyString => 0
  | String b0 r0 =>
      if (N_of_ascii b0 <? 128)%N then S (RuneCountInString r0)
      else
        match lead (N_of_ascii b0), r0 with
        | Some (2%nat, (lo, hi)), String b1 r1 =>
            if between lo hi (N_of_ascii b1)
            then S (RuneCountInString r1)
            else S (RuneCountInString r0)
        | Some (3%nat, (lo, hi)), String b1 (String b2 r2) =>
            if between lo hi (N_of_ascii b1) && cont (N_of_ascii b2)
            then S (RuneCountInString r2)
            else S (RuneCountInString r0)
        | Some (4%nat, (lo, hi)), String b1 (String b2 (String b3 r3)) =>
            if between lo hi (N_of_ascii b1) && cont (N_of_ascii b2)
               && cont (N_of_ascii b3)
            then S (RuneCountInString r3)
            else S (RuneCountInString r0)
        | _, _ => S (RuneCountInString r0)
        end
  end.

End utf8.

Module json.
Import models.

Definition hex (n : N) : ascii :=
  match String.get (N.to_nat n) "0123456789abcdef" with
  | Some c => c
  | None => "0"%char
  end.

(** [htmlSafeSet]: the ASCII bytes copied verbatim. *)
Definition htmlSafe (b : ascii) : bool :=
  let n := N_of_ascii b in
  utf8.between 32 127 n
  && negb (n =? 34)%N && negb (n =? 38)%N && negb (n =? 60)%N
  && negb (n =? 62)%N && negb (n =? 92)%N.

(** The escape of an ASCII byte outside [htmlSafeSet]. *)
Definition escape (b : ascii) : string :=
  let n := N_of_ascii b in
  if (n =? 92)%N || (n =? 34)%N then String "\" (String b "")
  else if (n =? 8)%N then "\b"
  else if (n =? 12)%N then "\f"
  else if (n =? 10)%N then "\n"
  else if (n =? 13)%N then "\r"
  else if (n =? 9)%N then "\t"
  else "\u00" ++ String (hex (N.shiftr n 4)) (String (hex (N.land n 15)) "").

(** What the encoder writes for a byte that starts no valid encoding. *)
Definition replacement : string := "\ufffd".

(** The body of [appendString], between the two quotes. *)
Fixpoint appendRunes (src : string) : string :=
  match src with
  | EmptyString => ""
  | String b0 r0 =>
      let n0 := N_of_ascii b0 in
      if (n0 <? 128)%N then
        (if htmlSafe b0 then String b0 "" else escape b0) ++ appendRunes r0
      else
        match utf8.lead n0, r0 with
        | Some (2%nat, (lo, hi)), String b1 r1 =>
            if utf8.between lo hi (N_of_ascii b1)
            then String b0 (String b1 (appendRunes r1))
            else replacement ++ appendRunes r0
        | Some (3%nat, (lo, hi)), String b1 (String b2 r2) =>
            if utf8.between lo hi (N_of_ascii b1) && utf8.cont (N_of_ascii b2)
            then
              if (n0 =? 226)%N && (N_of_ascii b1 =? 128)%N
                 && utf8.between 168 169 (N_of_ascii b2)
              then "\u202" ++ String (hex (N.land (N_of_ascii b2) 15)) (appendRunes r2)
              else String b0 (String b1 (String b2 (appendRunes r2)))
            else replacement ++ appendRunes r0
        | Some (4%nat, (lo, hi)), String b1 (String b2 (String b3 r3)) =>
            if utf8.between lo hi (N_of_ascii b1) && utf8.cont (N_of_ascii b2)
               && utf8.cont (N_of_ascii b3)
            then String b0 (String b1 (String b2 (String b3 (appendRunes r3))))
            else replacement ++ appendRunes r0
        | _, _ => replacement ++ appendRunes r0
        end
  end.

Definition quote : string := String (ascii_of_N 34) "".

Definition appendString (src : string) : string :=
  quote ++ appendRunes src ++ quote.

(** The key of an object member, followed by the colon. *)
Definition member (name : string) (value : string) : string :=
  appendString name ++ ":" ++ value.

Fixpoint join (sep : string) (l : list string) : string :=
  match l with
  | [] => ""
  | [x] => x
  | x :: l' => x ++ sep ++ join sep l'
  end.

Definition object (members : list string) : string := "{" ++ join "," members ++ "}".
Definition array (elems : list string) : string := "[" ++ join "," elems ++ "]".

(** [json.Marshal] returns the text and an error; the types the handlers
    marshal are instances of [Marshaler]. *)
Class Marshaler (A : Type) := Marshal : A -> string * option error.

#[global] Instance Marshal_string : Marshaler string :=
  fun s => (appendString s, None).

(** A struct: its exported fields in order, under their [json] tags. *)
#[global] Instance Marshal_User : Marshaler User :=
  fun u => (object [ member "email" (appendString (Email u));
                     member "firstName" (appendString (FirstName u));
                     member "lastName" (appendString (LastName u)) ], None).

(** A pointer: [null] when nil, else the value pointed to. *)
#[global] Instance Marshal_ptr {A} `{Marshaler A} : Marshaler (option A) :=
  fun p => match p with
           | None => ("null", None)
           | Some a => Marshal a
           end.

Fixpoint marshalAll {A} `{Marshaler A} (l : list A) : list string * option error :=
  match l with
  | [] => ([], None)
  | x :: l' =>
      match Marshal x with
      | (_, Some e) => ([], Some e)
      | (t, None) => let (ts, e) := marshalAll l' in (t :: ts, e)
      end
  end.

(** The elements of a slice; a slice is [option (list A)], nil being
    [None], so that [Marshal_ptr] gives [null] for a nil slice. *)
#[global] Instance Marshal_list {A} `{Marshaler A} : Marshaler (list A) :=
  fun l => match marshalAll l with
           | (_, Some e) => ("", Some e)
           | (ts, None) => (array ts, None)
           end.

(** A map with string keys: the members sorted by key. *)
Definition sortedEntries {A} (m : gmap string A) : list (string * A) :=
  merge_sort (fun a b => Is_true (String.leb (fst a) (fst b))) (map_to_list m).

Fixpoint marshalMembers {A} `{Marshaler A} (l : list (string * A))
  : list string * option error :=
  match l with
  | [] => ([], None)
  | (k, x) :: l' =>
      match Marshal x with
      | (_, Some e) => ([], Some e)
      | (t, None) => let (ts, e) := marshalMembers l' in (member k t :: ts, e)
      end
  end.

#[global] Instance Marshal_map {A} `{Marshaler A} : Marshaler (gmap string A) :=
  fun m => match marshalMembers (sortedEntries m) with
           | (_, Some e) => ("", Some e)
           | (ts, None) => (object ts, None)
           end.

End json.

(* ------------------------------------------------------------------ *)
(** ** strconv, net/http, aws-lambda-go/events *)

Module strconv.

Definition digit (c : ascii) : option Z :=
  let n := N_of_ascii c in
  if utf8.between 48 57 n then Some (Z.of_N n - 48)%Z else None.

(** The value of a text of decimal digits, [None] on any other byte. *)
Fixpoint digits (acc : Z) (s : string) : option Z :=
  match s with
  | EmptyString => Some acc
  | String c s' =>
      match digit c with
      | Some d => digits (acc * 10 + d)%Z s'
      | None => None
      end
  end.

Definition unsigned (s : string) : option Z :=
  match s with
  | EmptyString => None
  | _ => digits 0 s
  end.

Definition minInt : Z := (- 2 ^ 63)%Z.
Definition maxInt : Z := (2 ^ 63 - 1)%Z.

(** [strconv.Atoi] for the 64-bit [int] of the deployment target: an
    optional sign and at least one decimal digit, the value within the
    range of [int].  [None] stands for a non-nil error (syntax or range),
    whose message no caller reads. *)
Definition Atoi (s : string) : option Z :=
  let v :=
    match s with
    | String "+" s' => unsigned s'
    | String "-" s' => Z.opp <$> unsigned s'
    | _ => unsigned s
    end in
  match v with
  | Some n => if ((minInt <=? n) && (n <=? maxInt))%Z then Some n else None
  | None => None
  end.

End strconv.

Module http.
Definition StatusOK : Z := 200.
Definition StatusCreated : Z := 201.
Definition StatusNoContent : Z := 204.
Definition StatusBadRequest : Z := 400.
Definition StatusNotFound : Z := 404.
Definition StatusMethodNotAllowed : Z := 405.
End http.

Module events.

(** The fields of [events.APIGatewayProxyRequest] the program reads;
    [ReqBody] is its field [Body]. *)
Record APIGatewayProxyRequest := mkRequest {
  HTTPMethod : string;
  Path : string;
  QueryStringParameters : gmap string string;
  ReqBody : string
}.

(** The fields of [events.APIGatewayProxyResponse] the program writes. *)
Record APIGatewayProxyResponse := mkResponse {
  StatusCode : Z;
  Headers : gmap string string;
  Body : string
}.

(** Indexing a Go [map[string]string]: the zero value for a missing key. *)
Definition index (m : gmap string string) (k : string) : string :=
  default "" (m !! k).

End events.

(* ------------------------------------------------------------------ *)
(** ** The DynamoDB table (aws-sdk-go), as the repository observes it

    The client [dynamodbiface.DynamoDBAPI] is the store behind the
    repository; it is modelled by the table of the README, with the hash key
    [email], and by the four calls the repository makes.  An item is either
    the attribute map of a user record (what [dynamodbattribute.MarshalMap]
    makes of a [User], and [UnmarshalMap] reads back), or some other
    attribute map under a hash key, which [UnmarshalMap] rejects.  Items are
    kept in the order of a scan.  Every call of the client may fail in
    transport (network, throttling, permission): the client carries the
    outcomes of its coming calls, [None] (also when the list is exhausted)
    for a call that goes through, and a call that fails leaves the table as
    it is. *)

Module dynamodb.
Import models.

Inductive Item : Type :=
| ItemUser (u : User)
| ItemOther (hashKey : string) (why : error).

Definition key (it : Item) : string :=
  match it with
  | ItemUser u => Email u
  | ItemOther k _ => k
  end.

(** [map[string]*dynamodb.AttributeValue] used as a position of a scan. *)
Inductive Key : Type :=
| KeyNil                       (* the nil map *)
| KeyEmail (k : string)        (* the hash key of an item *)
| KeyOther.                    (* any other attribute map *)

Record DynamoDB := mkDynamoDB {
  items : list Item;
  faults : list (option error)
}.

(** The transport outcome of the next call. *)
Definition call (c : DynamoDB) : option error * DynamoDB :=
  match faults c with
  | [] => (None, c)
  | f :: fs => (f, mkDynamoDB (items c) fs)
  end.

Definition lookup (k : string) (l : list Item) : option Item :=
  List.find (fun it => String.eqb (key it) k) l.

(** A put replaces the item under the same key, or adds the item. *)
Fixpoint put (it : Item) (l : list Item) : list Item :=
  match l with
  | [] => [it]
  | x :: l' => if String.eqb (key x) (key it) then it :: l' else x :: put it l'
  end.

Definition remove (k : string) (l : list Item) : list Item :=
  List.filter (fun it => negb (String.eqb (key it) k)) l.

Fixpoint after (k : string) (l : list Item) : list Item :=
  match l with
  | [] => []
  | x :: l' => if String.eqb (key x) k then l' else after k l'
  end.

Definition ValidationException : error := "ValidationException".

Definition GetItem (c : DynamoDB) (k : string)
  : (option Item * option error) * DynamoDB :=
  let '(f, c') := call c in
  match f with
  | Some e => ((None, Some e), c')
  | None => ((lookup k (items c'), None), c')
  end.

Definition PutItem (c : DynamoDB) (it : Item) : option error * DynamoDB :=
  let '(f, c') := call c in
  match f with
  | Some e => (Some e, c')
  | None => (None, mkDynamoDB (put it (items c')) (faults c'))
  end.

Definition DeleteItem (c : DynamoDB) (k : string) : option error * DynamoDB :=
  let '(f, c') := call c in
  match f with
  | Some e => (Some e, c')
  | None => (None, mkDynamoDB (remove k (items c')) (faults c'))
  end.

(** A scan returns at most [limit] items after the start position, and the
    key of the last one when items remain after it. *)
Definition Scan (c : DynamoDB) (limit : Z) (start : Key)
  : ((list Item * Key) * option error) * DynamoDB :=
  let '(f, c') := call c in
  match f with
  | Some e => ((([], KeyNil), Some e), c')
  | None =>
      if (limit <=? 0)%Z then ((([], KeyNil), Some ValidationException), c')
      else
        match start with
        | KeyOther => ((([], KeyNil), Some ValidationException), c')
        | _ =>
            let rest := match start with
                        | KeyEmail k => after k (items c')
                        | _ => items c'
                        end in
            let page := take (Z.to_nat limit) rest in
            let lastKey :=
              if (limit <? Z.of_nat (length rest))%Z
              then match last page with
                   | Some it => KeyEmail (key it)
                   | None => KeyNil
                   end
              else KeyNil in
            (((page, lastKey), None), c')
        end
  end.

End dynamodb.

Module dynamodbattribute.
Import models dynamodb.

Definition MarshalMap (u : User) : Item * option error := (ItemUser u, None).

Definition UnmarshalMap (it : Item) : User * option error :=
  match it with
  | ItemUser u => (u, None)
  | ItemOther _ why => (mkUser "" "" "", Some why)
  end.

Fixpoint UnmarshalListOfMaps (l : list Item) : list User * option error :=
  match l with
  | [] => ([], None)
  | it :: l' =>
      match UnmarshalMap it with
      | (_, Some e) => ([], Some e)
      | (u, None) => let (us, e) := UnmarshalListOfMaps l' in (u :: us, e)
      end
  end.

End dynamodbattribute.

(** encoding/json, the decoder: what [json.Unmarshal] makes of a request
    body and of a pagination token, and [json.Marshal] of a scan position. *)
Class Decoder := {
  UnmarshalUser : string -> models.User * option error;
  UnmarshalKey : string -> dynamodb.Key * option error;
  MarshalKey : dynamodb.Key -> string * option error
}.

(* ------------------------------------------------------------------ *)
(** ** pkg/repository *)

Module repository.
Import models dynamodb dynamodbattribute.

Definition ErrorFailedToUnmarshalRecord : string := "failed to unmarshal record".
Definition ErrorFailedToFetchRecord : string := "failed to fetch record from DynamoDB".
Definition ErrorInvalidUserData : string := "invalid user data".
Definition ErrorCouldNotMarshalItem : string := "could not marshal item".
Definition ErrorCouldNotDeleteItem : string := "could not delete item".
Definition ErrorCouldNotDynamoPutItem : string := "could not put item into DynamoDB".
Definition ErrorUserAlreadyExists : string := "user already exists".
Definition ErrorUserDoesNotExist : string := "user does not exist".
Definition ErrorCouldNotScanItems : string := "could not scan items from DynamoDB".
Definition ErrorInvalidLastEvaluatedKey : string := "invalid last evaluated key for pagination".

(** [fmt.Errorf("%s: %w", tag, err)], observed through [Error()]. *)
Definition Errorf (tag : string) (err : error) : option error :=
  Some (tag ++ ": " ++ err).

(** The interface [UserRepository]; [R] is the repository together with
    the store it acts on, which every method hands back. *)
Class UserRepository (R : Type) := {
  FetchUser : R -> string -> (option User * option error) * R;
  FetchUsers : R -> Z -> string -> ((option (list User) * string) * option error) * R;
  CreateUser : R -> User -> (option User * option error) * R;
  UpdateUser : R -> User -> (option User * option error) * R;
  DeleteUser : R -> string -> option error * R
}.

Module DynamoDBUserRepository.

Record t := mk {
  client : DynamoDB;
  tableName : string
}.

Definition New (client : DynamoDB) (tableName : string) : t := mk client tableName.

Definition FetchUser (repo : t) (email : string) : (option User * option error) * t :=
  let '((item, err), c) := GetItem (client repo) email in
  let repo := mk c (tableName repo) in
  match err with
  | Some e => ((None, Errorf ErrorFailedToFetchRecord e), repo)
  | None =>
      match item with
      | None => ((None, None), repo)
      | Some it =>
          let '(u, err) := UnmarshalMap it in
          match err with
          | Some e => ((None, Errorf ErrorFailedToUnmarshalRecord e), repo)
          | None => ((Some u, None), repo)
          end
      end
  end.

Definition FetchUsers `{Decoder} (repo : t) (limit : Z) (lastEvaluatedKey : string)
  : ((option (list User) * string) * option error) * t :=
  let '(startKey, err) :=
    if String.eqb lastEvaluatedKey "" then (KeyNil, None)
    else UnmarshalKey lastEvaluatedKey in
  match err with
  | Some _ => (((None, ""), errors.New ErrorInvalidLastEvaluatedKey), repo)
  | None =>
      let '(((resItems, resKey), err), c) := Scan (client repo) limit startKey in
      let repo := mk c (tableName repo) in
      match err with
      | Some e => (((None, ""), Errorf ErrorCouldNotScanItems e), repo)
      | None =>
          let '(users, err) := UnmarshalListOfMaps resItems in
          match err with
          | Some e => (((None, ""), Errorf ErrorFailedToUnmarshalRecord e), repo)
          | None =>
              match resKey with
              | KeyNil => (((Some users, ""), None), repo)
              | _ =>
                  let '(keyBytes, err) := MarshalKey resKey in
                  match err with
                  | Some e =>
                      (((None, ""),
                        Some ("could not marshal LastEvaluatedKey: " ++ e)), repo)
                  | None => (((Some users, keyBytes), None), repo)
                  end
              end
          end
      end
  end.

Definition CreateUser (repo : t) (user : User) : (option User * option error) * t :=
  let '((currentUser, err), repo) := FetchUser repo (Email user) in
  match err with
  | Some e => ((None, Some e), repo)
  | None =>
      match currentUser with
      | Some _ => ((None, errors.New ErrorUserAlreadyExists), repo)
      | None =>
          let '(av, err) := MarshalMap user in
          match err with
          | Some e => ((None, Errorf ErrorCouldNotMarshalItem e), repo)
          | None =>
              let '(err, c) := PutItem (client repo) av in
              let repo := mk c (tableName repo) in
              match err with
              | Some e => ((None, Errorf ErrorCouldNotDynamoPutItem e), repo)
              | None => ((Some user, None), repo)
              end
          end
      end
  end.

Definition UpdateUser (repo : t) (user : User) : (option User * option error) * t :=
  let '((currentUser, err), repo) := FetchUser repo (Email user) in
  match err with
  | Some e => ((None, Some e), repo)
  | None =>
      match currentUser with
      | None => ((None, errors.New ErrorUserDoesNotExist), repo)
      | Some _ =>
          let '(av, err) := MarshalMap user in
          match err with
          | Some e => ((None, Errorf ErrorCouldNotMarshalItem e), repo)
          | None =>
              let '(err, c) := PutItem (client repo) av in
              let repo := mk c (tableName repo) in
              match err with
              | Some e => ((None, Errorf ErrorCouldNotDynamoPutItem e), repo)
              | None => ((Some user, None), repo)
              end
          end
      end
  end.

Definition DeleteUser (repo : t) (email : string) : option error * t :=
  let '((currentUser, err), repo) := FetchUser repo email in
  match err with
  | Some e => (Some e, repo)
  | None =>
      match currentUser with
      | None => (errors.New ErrorUserDoesNotExist, repo)
      | Some _ =>
          let '(err, c) := DeleteItem (client repo) email in
          let repo := mk c (tableName repo) in
          match err with
          | Some e => (Errorf ErrorCouldNotDeleteItem e, repo)
          | None => (None, repo)
          end
      end
  end.

#[global] Instance implements `{Decoder} : UserRepository t := {
  repository.FetchUser := FetchUser;
  repository.FetchUsers := FetchUsers;
  repository.CreateUser := CreateUser;
  repository.UpdateUser := UpdateUser;
  repository.DeleteUser := DeleteUser
}.

End DynamoDBUserRepository.

End repository.

(* ------------------------------------------------------------------ *)
(** ** pkg/handlers *)

Module handlers.
Import models json events.

Record ErrorBody := mkErrorBody {
  ErrorMsg : option string
}.

(** [json:"error,omitempty"] *)
#[global] Instance Marshal_ErrorBody : Marshaler ErrorBody :=
  fun b => match ErrorMsg b with
           | None => (object [], None)
           | Some msg => (object [member "error" (appendString msg)], None)
           end.

Definition StringPtr (s : string) : option string := Some s.

(** The values stored in the [map[string]interface{}] of a page. *)
Inductive MapValue : Type :=
| OfUsers (users : option (list User))
| OfString (s : string).

(** The values handed to [apiResponse] as [interface{}].  [OfUnsupported]
    stands for a value of a type encoding/json has no encoding for (a
    channel, a function). *)
Inductive Any : Type :=
| Nil
| OfErrorBody (b : ErrorBody)
| OfUser (u : option User)
| OfMap (m : gmap string MapValue)
| OfUnsupported (type : string).

#[global] Instance Marshal_MapValue : Marshaler MapValue :=
  fun v => match v with
           | OfUsers users => Marshal users
           | OfString s => Marshal s
           end.

#[global] Instance Marshal_Any : Marshaler Any :=
  fun v => match v with
           | Nil => ("null", None)
           | OfErrorBody b => Marshal b
           | OfUser u => Marshal u
           | OfMap m => Marshal m
           | OfUnsupported type => ("", Some ("json: unsupported type: " ++ type))
           end.

Definition apiResponse (status : Z) (body : Any)
  : APIGatewayProxyResponse * option error :=
  let resp := mkResponse 0 {[ "Content-Type" := "application/json" ]} "" in
  let resp := mkResponse status (Headers resp) (Body resp) in
  let '(stringBody, err) := Marshal body in
  match err with
  | Some _ =>
      let '(errorJson, _) :=
        Marshal (mkErrorBody (StringPtr "Failed to marshal response body")) in
      let resp := mkResponse (StatusCode resp) (Headers resp) errorJson in
      let resp := mkResponse 500 (Headers resp) (Body resp) in
      (resp, None)
  | None =>
      let resp := mkResponse (StatusCode resp) (Headers resp) stringBody in
      (resp, None)
  end.

Definition UnhandledMethod : APIGatewayProxyResponse * option error :=
  apiResponse http.StatusMethodNotAllowed
    (OfErrorBody (mkErrorBody (StringPtr "Method Not Allowed"))).

Module UserHandler.

Record t (R : Type) := mk {
  userRepo : R
}.
Arguments mk {R} _.
Arguments userRepo {R} _.

Section Methods.
Context {R : Type} `{repository.UserRepository R} `{Decoder}.

Definition GetUser (h : t R) (req : APIGatewayProxyRequest)
  : (APIGatewayProxyResponse * option error) * t R :=
  let email := index (QueryStringParameters req) "email" in
  if negb (String.eqb email "") then
    let '((user, err), repo) := repository.FetchUser (userRepo h) email in
    let h := mk repo in
    match err with
    | Some e =>
        (apiResponse http.StatusBadRequest
           (OfErrorBody (mkErrorBody (StringPtr e))), h)
    | None =>
        match user with
        | None =>
            (apiResponse http.StatusNotFound
               (OfErrorBody (mkErrorBody (StringPtr "User not found"))), h)
        | Some _ => (apiResponse http.StatusOK (OfUser user), h)
        end
    end
  else
    let limitStr := index (QueryStringParameters req) "limit" in
    let lastEvaluatedKey := index (QueryStringParameters req) "lastEvaluatedKey" in
    let limit := 10%Z in
    let limit :=
      if negb (String.eqb limitStr "") then
        match strconv.Atoi limitStr with
        | Some l => if (0 <? l)%Z then l else limit
        | None => limit
        end
      else limit in
    let '(((users, newLastEvaluatedKey), err), repo) :=
      repository.FetchUsers (userRepo h) limit lastEvaluatedKey in
    let h := mk repo in
    match err with
    | Some e =>
        (apiResponse http.StatusBadRequest
           (OfErrorBody (mkErrorBody (StringPtr e))), h)
    | None =>
        let responseBody : gmap string MapValue := {[ "users" := OfUsers users ]} in
        let responseBody :=
          if negb (String.eqb newLastEvaluatedKey "")
          then <[ "lastEvaluatedKey" := OfString newLastEvaluatedKey ]> responseBody
          else responseBody in
        (apiResponse http.StatusOK (OfMap responseBody), h)
    end.

Definition CreateUser (h : t R) (req : APIGatewayProxyRequest)
  : (APIGatewayProxyResponse * option error) * t R :=
  let '(user, err) := UnmarshalUser (ReqBody req) in
  match err with
  | Some _ =>
      (apiResponse http.StatusBadRequest
         (OfErrorBody (mkErrorBody (StringPtr "Invalid request body"))), h)
  | None =>
      match validators.ValidateUser user with
      | Some e =>
          (apiResponse http.StatusBadRequest
             (OfErrorBody (mkErrorBody (StringPtr e))), h)
      | None =>
          let '((createdUser, err), repo) := repository.CreateUser (userRepo h) user in
          let h := mk repo in
          match err with
          | Some e =>
              (apiResponse http.StatusBadRequest
                 (OfErrorBody (mkErrorBody (StringPtr e))), h)
          | None => (apiResponse http.StatusCreated (OfUser createdUser), h)
          end
      end
  end.

Definition UpdateUser (h : t R) (req : APIGatewayProxyRequest)
  : (APIGatewayProxyResponse * option error) * t R :=
  let '(user, err) := UnmarshalUser (ReqBody req) in
  match err with
  | Some _ =>
      (apiResponse http.StatusBadRequest
         (OfErrorBody (mkErrorBody (StringPtr "Invalid request body"))), h)
  | None =>
      if String.eqb (Email user) "" then
        (apiResponse http.StatusBadRequest
           (OfErrorBody (mkErrorBody (StringPtr "Email is required for user update"))), h)
      else
        match validators.ValidateUser user with
        | Some e =>
            (apiResponse http.StatusBadRequest
               (OfErrorBody (mkErrorBody (StringPtr e))), h)
        | None =>
            let '((updatedUser, err), repo) := repository.UpdateUser (userRepo h) user in
            let h := mk repo in
            match err with
            | Some e =>
                if String.eqb e repository.ErrorUserDoesNotExist then
                  (apiResponse http.StatusNotFound
                     (OfErrorBody (mkErrorBody (StringPtr "User not found for update"))), h)
                else
                  (apiResponse http.StatusBadRequest
                     (OfErrorBody (mkErrorBody (StringPtr e))), h)
            | None => (apiResponse http.StatusOK (OfUser updatedUser), h)
            end
        end
  end.

Definition DeleteUser (h : t R) (req : APIGatewayProxyRequest)
  : (APIGatewayProxyResponse * option error) * t R :=
  let email := index (QueryStringParameters req) "email" in
  if String.eqb email "" then
    (apiResponse http.StatusBadRequest
       (OfErrorBody (mkErrorBody
          (StringPtr "Email query parameter is required for deletion"))), h)
  else
    let '(err, repo) := repository.DeleteUser (userRepo h) email in
    let h := mk repo in
    match err with
    | Some e =>
        if String.eqb e repository.ErrorUserDoesNotExist then
          (apiResponse http.StatusNotFound
             (OfErrorBody (mkErrorBody (StringPtr "User not found for deletion"))), h)
        else
          (apiResponse http.StatusBadRequest
             (OfErrorBody (mkErrorBody (StringPtr e))), h)
    | None => (apiResponse http.StatusNoContent Nil, h)
    end.

End Methods.

Definition New {R : Type} (userRepo : R) : t R := mk userRepo.

End UserHandler.

End handlers.

(* ------------------------------------------------------------------ *)
(** ** cmd/main.go: the dispatch on the method; the global [userHandler] is
    passed in and handed back. *)

Module main.
Import events handlers.

Definition handler {R : Type} `{repository.UserRepository R} `{Decoder}
  (userHandler : UserHandler.t R) (req : APIGatewayProxyRequest)
  : (APIGatewayProxyResponse * option error) * UserHandler.t R :=
  if String.eqb (HTTPMethod req) "GET" then UserHandler.GetUser userHandler req
  else if String.eqb (HTTPMethod req) "POST" then UserHandler.CreateUser userHandler req
  else if String.eqb (HTTPMethod req) "PUT" then UserHandler.UpdateUser userHandler req
  else if String.eqb (HTTPMethod req) "DELETE" then UserHandler.DeleteUser userHandler req
  else (UnhandledMethod, userHandler).

End main.

(* ------------------------------------------------------------------ *)
(** ** config (in cmd/main.go's file group): the configuration read from the
    environment.  The environment is a map from names to values;
    [os.Getenv] gives the empty text for a name that is not set. *)

Module os.
Definition Getenv (env : gmap string string) (name : string) : string :=
  default "" (env !! name).
End os.

Module config.

Record Config := mkConfig {
  AWSRegion : string;
  TableName : string
}.

Definition LoadConfig (env : gmap string string) : option Config * option error :=
  let region := os.Getenv env "AWS_REGION" in
  if String.eqb region "" then
    (None, errors.New "AWS_REGION environment variable not set")
  else
    let tableName := os.Getenv env "DYNAMODB_TABLE_NAME" in
    if String.eqb tableName "" then
      (None, errors.New "DYNAMODB_TABLE_NAME environment variable not set")
    else (Some (mkConfig region tableName), None).

End config.

(* ------------------------------------------------------------------ *)
(** ** A recording repository

    The handlers reach the store only through the interface: wrapping any
    repository so that it logs the methods called on it, in order, makes the
    calls of a handler observable. *)

Module recording.
Import models.

Inductive Call : Type :=
| CallFetchUser (email : string)
| CallFetchUsers (limit : Z) (lastEvaluatedKey : string)
| CallCreateUser (user : User)
| CallUpdateUser (user : User)
| CallDeleteUser (email : string).

Record t (R : Type) := mk {
  inner : R;
  calls : list Call
}.
Arguments mk {R} _ _.
Arguments inner {R} _.
Arguments calls {R} _.

Definition log {R A} (r : t R) (c : Call) (res : A * R) : A * t R :=
  (fst res, mk (snd res) (calls r ++ [c])).

#[global] Instance implements {R} `{repository.UserRepository R}
  : repository.UserRepository (t R) := {
  repository.FetchUser r email :=
    log r (CallFetchUser email) (repository.FetchUser (inner r) email);
  repository.FetchUsers r limit key :=
    log r (CallFetchUsers limit key) (repository.FetchUsers (inner r) limit key);
  repository.CreateUser r user :=
    log r (CallCreateUser user) (repository.CreateUser (inner r) user);
  repository.UpdateUser r user :=
    log r (CallUpdateUser user) (repository.UpdateUser (inner r) user);
  repository.DeleteUser r email :=
    log r (CallDeleteUser email) (repository.DeleteUser (inner r) email)
}.

End recording.

(* ------------------------------------------------------------------ *)
(** * Specifications *)

Import models.

(** ** Validation, in the words of the specification

    An email is valid when it has between 3 and 254 characters and belongs
    to the language of the email pattern. *)

Definition valid_email (email : string) : Prop :=
  (3 <= utf8.RuneCountInString email <= 254)%nat
  /\ regexp.Matches validators.rxEmail (list_ascii_of_string email).

(** The four rules in their order; each rule applies only when the rules
    before it pass. *)
Inductive validate_spec (r : User) : option error -> Prop :=
| rule_email_required :
    Email r = "" ->
    validate_spec r (Some "email is required")
| rule_email_format :
    Email r <> "" -> ~ valid_email (Email r) ->
    validate_spec r (Some "invalid email format")
| rule_first_name :
    Email r <> "" -> valid_email (Email r) -> FirstName r = "" ->
    validate_spec r (Some "first name is required")
| rule_last_name :
    Email r <> "" -> valid_email (Email r) -> FirstName r <> "" -> LastName r = "" ->
    validate_spec r (Some "last name is required")
| rule_ok :
    Email r <> "" -> valid_email (Email r) -> FirstName r <> "" -> LastName r <> "" ->
    validate_spec r None.

(** Every class of a pattern lies within a set of bytes. *)
Fixpoint classes_within (P : ascii -> Prop) (r : regexp.Regexp) : Prop :=
  match r with
  | regexp.Class p => forall c, p c = true -> P c
  | regexp.Cat r1 r2 | regexp.Alt r1 r2 => classes_within P r1 /\ classes_within P r2
  | regexp.Star r1 => classes_within P r1
  | _ => True
  end.

Definition is_ascii (c : ascii) : Prop := (N_of_ascii c < 128)%N.

(** ** The store behind the repository *)

(** The items of the table a repository acts on. *)
Definition table (repo : repository.DynamoDBUserRepository.t) : list dynamodb.Item :=
  dynamodb.items (repository.DynamoDBUserRepository.client repo).

(** The next call of the client goes through: the store answers. *)
Definition answers (repo : repository.DynamoDBUserRepository.t) : Prop :=
  fst (dynamodb.call (repository.DynamoDBUserRepository.client repo)) = None.

(** The next call of the client fails in transport with [e]. *)
Definition fails_with (repo : repository.DynamoDBUserRepository.t) (e : error) : Prop :=
  fst (dynamodb.call (repository.DynamoDBUserRepository.client repo)) = Some e.

(** No two stored items share an email. *)
Definition unique_emails (l : list dynamodb.Item) : Prop :=
  forall i j a b,
    l !! i = Some a -> l !! j = Some b -> dynamodb.key a = dynamodb.key b -> i = j.

(** A sequence of operations on a repository, one after the other. *)
Definition perform {R : Type} `{repository.UserRepository R}
  (repo : R) (op : recording.Call) : R :=
  match op with
  | recording.CallFetchUser email => snd (repository.FetchUser repo email)
  | recording.CallFetchUsers limit key => snd (repository.FetchUsers repo limit key)
  | recording.CallCreateUser user => snd (repository.CreateUser repo user)
  | recording.CallUpdateUser user => snd (repository.UpdateUser repo user)
  | recording.CallDeleteUser email => snd (repository.DeleteUser repo email)
  end.

Definition run {R : Type} `{repository.UserRepository R}
  (repo : R) (ops : list recording.Call) : R :=
  fold_left perform ops repo.

(** The repository once its client has made one call. *)
Definition served (repo : repository.DynamoDBUserRepository.t)
  : repository.DynamoDBUserRepository.t :=
  repository.DynamoDBUserRepository.mk
    (snd (dynamodb.call (repository.DynamoDBUserRepository.client repo)))
    (repository.DynamoDBUserRepository.tableName repo).

(** The write of a record once the check before it has passed: what
    [CreateUser] and [UpdateUser] do after [FetchUser]. *)
Definition put_user (repo : repository.DynamoDBUserRepository.t) (user : User)
  : (option User * option error) * repository.DynamoDBUserRepository.t :=
  match fst (dynamodb.call (repository.DynamoDBUserRepository.client repo)) with
  | Some e =>
      ((None, repository.Errorf repository.ErrorCouldNotDynamoPutItem e), served repo)
  | None =>
      ((Some user, None),
       repository.DynamoDBUserRepository.mk
         (dynamodb.mkDynamoDB
            (dynamodb.put (dynamodb.ItemUser user) (table repo))
            (dynamodb.faults (repository.DynamoDBUserRepository.client (served repo))))
         (repository.DynamoDBUserRepository.tableName repo))
  end.

(** ** Responses, in the words of the specification *)

(** A text between double quotes. *)
Definition quoted (s : string) : string := json.quote ++ s ++ json.quote.

(** The headers of every response: the JSON content type. *)
Definition json_headers : gmap string string :=
  {[ "Content-Type" := "application/json" ]}.

(** The error body [{"error":msg}], [msg] as a JSON string. *)
Definition error_json (msg : string) : string :=
  "{" ++ quoted "error" ++ ":" ++ json.appendString msg ++ "}".

(** The JSON text of a user record. *)
Definition user_json (u : User) : string :=
  "{" ++ quoted "email" ++ ":" ++ json.appendString (Email u) ++ ","
      ++ quoted "firstName" ++ ":" ++ json.appendString (FirstName u) ++ ","
      ++ quoted "lastName" ++ ":" ++ json.appendString (LastName u) ++ "}".

(** The limit of a page: the default of 10 when the parameter is missing,
    does not parse, or is not positive. *)
Definition page_limit (params : gmap string string) : Z :=
  match params !! "limit" with
  | None => 10
  | Some text =>
      match strconv.Atoi text with
      | None => 10
      | Some l => if (l <=? 0)%Z then 10 else l
      end
  end.

(** The members of the body of a page: the records, and the cursor only
    when the continuation token is not empty. *)
Definition page_body (users : option (list User)) (token : string)
  : gmap string handlers.MapValue :=
  if decide (token = "")
  then {[ "users" := handlers.OfUsers users ]}
  else <[ "lastEvaluatedKey" := handlers.OfString token ]>
         {[ "users" := handlers.OfUsers users ]}.

(** The JSON text of a slice of records: [null] for the nil slice. *)
Definition users_json (users : option (list User)) : string :=
  match users with
  | None => "null"
  | Some l => "[" ++ json.join "," (List.map user_json l) ++ "]"
  end.

(** The JSON text of a page: the member [lastEvaluatedKey] is there only
    when the continuation token is not empty. *)
Definition page_json (users : option (list User)) (token : string) : string :=
  if decide (token = "")
  then "{" ++ quoted "users" ++ ":" ++ users_json users ++ "}"
  else "{" ++ quoted "lastEvaluatedKey" ++ ":" ++ json.appendString token ++ ","
           ++ quoted "users" ++ ":" ++ users_json users ++ "}".

(** ** JSON texts up to insignificant space

    The text of a JSON document with the space between its tokens elided, as
    [json.Compact] writes it; the inside of a string literal is kept. *)
Definition is_space (c : ascii) : bool :=
  let n := N_of_ascii c in
  ((n =? 32) || (n =? 9) || (n =? 10) || (n =? 13))%N.

Fixpoint compact_from (in_string escaped : bool) (s : string) : string :=
  match s with
  | EmptyString => ""
  | String c s' =>
      if in_string then
        if escaped then String c (compact_from true false s')
        else if (N_of_ascii c =? 92)%N then String c (compact_from true true s')
        else if (N_of_ascii c =? 34)%N then String c (compact_from false false s')
        else String c (compact_from true false s')
      else if is_space c then compact_from false false s'
      else String c (compact_from (N_of_ascii c =? 34)%N false s')
  end.

Definition compact (s : string) : string := compact_from false false s.

(** ** Sample data *)

Definition alice : User := mkUser "a@b.com" "A" "B".
Definition alice2 : User := mkUser "a@b.com" "Alice" "Brown".

(** [{"email":"a@b.com","firstName":"A","lastName":"B"}] *)
Definition alice_json : string :=
  "{" ++ quoted "email" ++ ":" ++ quoted "a@b.com" ++ ","
      ++ quoted "firstName" ++ ":" ++ quoted "A" ++ ","
      ++ quoted "lastName" ++ ":" ++ quoted "B" ++ "}".

(** A decoder for the samples: it reads [alice_json] as a request body and
    takes the email itself as the text of a scan position. *)
Definition sample_decoder : Decoder := {|
  UnmarshalUser s :=
    if String.eqb s alice_json then (alice, None)
    else (mkUser "" "" "", Some "invalid character");
  UnmarshalKey s := (dynamodb.KeyEmail s, None);
  MarshalKey k :=
    match k with
    | dynamodb.KeyEmail s => (s, None)
    | _ => ("null", None)
    end
|}.

(** An empty table and a table holding [alice], behind a client whose calls
    all go through. *)
Definition empty_repo : repository.DynamoDBUserRepository.t :=
  repository.DynamoDBUserRepository.New (dynamodb.mkDynamoDB [] []) "LambdaInGoUser".

Definition alice_repo : repository.DynamoDBUserRepository.t :=
  repository.DynamoDBUserRepository.New
    (dynamodb.mkDynamoDB [dynamodb.ItemUser alice] []) "LambdaInGoUser".

(** [n] times the byte [c]. *)
Definition letters (n : nat) (c : ascii) : string :=
  string_of_list_ascii (List.repeat c n).

(** A text of 194 bytes that is the start of an email: [a@], then three
    labels of 63 letters, each followed by a dot. *)
Definition long_prefix : string :=
  "a@" ++ letters 63 "b" ++ "." ++ letters 63 "c" ++ "." ++ letters 63 "d" ++ ".".

(** Requests, and a sequence of operations. *)
Definition get_request (params : gmap string string) : events.APIGatewayProxyRequest :=
  events.mkRequest "GET" "/" params "".

Definition delete_request (params : gmap string string) : events.APIGatewayProxyRequest :=
  events.mkRequest "DELETE" "/" params "".

Definition put_request (body : string) : events.APIGatewayProxyRequest :=
  events.mkRequest "PUT" "/" ∅ body.

Definition sample_ops : list recording.Call :=
  [ recording.CallCreateUser alice2;
    recording.CallUpdateUser alice2;
    recording.CallDeleteUser "a@b.com";
    recording.CallCreateUser alice ].

(** ** Further notions for the properties of the code *)

(** Every coming call of the client goes through. *)
Definition reliable (repo : repository.DynamoDBUserRepository.t) : Prop :=
  Forall (fun f => f = None)
    (dynamodb.faults (repository.DynamoDBUserRepository.client repo)).

(** Every item of a table is a user record that passes validation. *)
Definition all_valid (l : list dynamodb.Item) : Prop :=
  forall it, it ∈ l ->
    exists u, it = dynamodb.ItemUser u /\ validators.ValidateUser u = None.

(** A sequence of requests served one after the other by the handler. *)
Definition serve {R : Type} `{repository.UserRepository R} `{Decoder}
  (h : handlers.UserHandler.t R) (reqs : list events.APIGatewayProxyRequest)
  : handlers.UserHandler.t R :=
  fold_left (fun h req => snd (main.handler h req)) reqs h.

(** The statuses the handlers answer with. *)
Definition handler_statuses : list Z := [200; 201; 204; 400; 404; 405]%Z.

(** The bytes of the domain of an email. *)
Definition domain_char (c : ascii) : Prop :=
  validators.alnum_hyphen c = true \/ c = "."%char.

(** A table holding [alice] behind a client whose second call fails. *)
Definition flaky_repo : repository.DynamoDBUserRepository.t :=
  repository.DynamoDBUserRepository.New
    (dynamodb.mkDynamoDB [dynamodb.ItemUser alice] [None; Some "timeout"])
    "LambdaInGoUser".

(** A decoder that reads no pagination token. *)
Definition rejecting_decoder : Decoder := {|
  UnmarshalUser s := (mkUser "" "" "", Some "unexpected end of JSON input");
  UnmarshalKey s := (dynamodb.KeyNil, Some "invalid character");
  MarshalKey k := ("null", None)
|}.

(** A response as every handler returns it: no error beside it, the JSON
    content type as its headers, and one of the statuses of the handlers. *)
Definition well_formed (out : events.APIGatewayProxyResponse * option error) : Prop :=
  snd out = None
  /\ events.Headers (fst out) = json_headers
  /\ events.StatusCode (fst out) ∈ handler_statuses.

(** The method a call to the repository belongs to, and for a write the
    validity of the record written. *)
Definition call_of_method (method : string) (c : recording.Call) : Prop :=
  match c with
  | recording.CallFetchUser _ | recording.CallFetchUsers _ _ => method = "GET"
  | recording.CallCreateUser u => method = "POST" /\ validators.ValidateUser u = None
  | recording.CallUpdateUser u => method = "PUT" /\ validators.ValidateUser u = None
  | recording.CallDeleteUser email => method = "DELETE" /\ email <> ""
  end.

Definition post_request (body : string) : events.APIGatewayProxyRequest :=
  events.mkRequest "POST" "/" ∅ body.

(** A decoder that takes the body of a request as the email of a record
    whose names are [A] and [B]. *)
Definition email_decoder : Decoder := {|
  UnmarshalUser s := (mkUser s "A" "B", None);
  UnmarshalKey s := (dynamodb.KeyEmail s, None);
  MarshalKey k :=
    match k with
    | dynamodb.KeyEmail s => (s, None)
    | _ => ("null", None)
    end
|}.

(** The statuses each method is answered with. *)
Definition method_statuses (method : string) : list Z :=
  if String.eqb method "GET" then [200; 400; 404]%Z
  else if String.eqb method "POST" then [201; 400]%Z
  else if String.eqb method "PUT" then [200; 400; 404]%Z
  else if String.eqb method "DELETE" then [204; 400; 404]%Z
  else [405]%Z.

(** An environment with both variables of the configuration. *)
Definition sample_env : gmap string string :=
  {[ "AWS_REGION" := "us-east-1"; "DYNAMODB_TABLE_NAME" := "LambdaInGoUser" ]}.

(* ------------------------------------------------------------------ *)
(** * Theorems *)

(** ** The matcher decides the language of a pattern *)

Section RegexpFacts.
Import regexp.

Lemma nullable_Matches r : nullable r = true <-> Matches r [].
Proof.
  split.
  - induction r; simpl; intros Hn; try discriminate.
    + constructor.
    + apply andb_true_iff in Hn as [H1 H2].
      change (@nil ascii) with (@nil ascii ++ [])%list. constructor; auto.
    + apply orb_true_iff in Hn as [H1 | H2]; [apply MAltL | apply MAltR]; auto.
    + constructor.
  - intros Hm. remember (@nil ascii) as s eqn:Hs.
    induction Hm; simpl; try discriminate; auto.
    + apply app_eq_nil in Hs as [-> ->]. rewrite IHHm1, IHHm2; auto.
    + rewrite IHHm; auto.
    + rewrite IHHm; auto. apply orb_true_r.
Qed.

Lemma deriv_sound c r : forall s, Matches (deriv c r) s -> Matches r (c :: s).
Proof.
  induction r; simpl; intros s Hm.
  - inversion Hm.
  - inversion Hm.
  - destruct (p c) eqn:Hp; inversion Hm; subst. constructor; exact Hp.
  - destruct (nullable r1) eqn:Hn.
    + inversion Hm as [ | | | ? ? ? Hl | ? ? ? Hr | | ]; subst.
      * inversion Hl; subst.
        change (c :: s1 ++ s2)%list with ((c :: s1) ++ s2)%list. constructor; auto.
      * change (c :: s) with ([] ++ c :: s)%list. constructor; auto.
        apply nullable_Matches; exact Hn.
    + inversion Hm; subst.
      change (c :: s1 ++ s2)%list with ((c :: s1) ++ s2)%list. constructor; auto.
  - inversion Hm; subst; [apply MAltL | apply MAltR]; auto.
  - inversion Hm; subst.
    change (c :: s1 ++ s2)%list with ((c :: s1) ++ s2)%list. constructor; auto.
Qed.

Lemma deriv_complete r s' :
  Matches r s' -> forall c s, s' = c :: s -> Matches (deriv c r) s.
Proof.
  induction 1 as [ | p a Hp | r1 r2 s1 s2 H1 IH1 H2 IH2 | r1 r2 s0 H1 IH1
                 | r1 r2 s0 H2 IH2 | r1 | r1 s1 s2 H1 IH1 H2 IH2 ];
    intros c s Hs; simpl.
  - discriminate.
  - injection Hs as -> <-. rewrite Hp. constructor.
  - destruct s1 as [ | a s1'].
    + simpl in Hs. apply nullable_Matches in H1. rewrite H1.
      apply MAltR. eauto.
    + injection Hs as -> <-.
      destruct (nullable r1); [apply MAltL | ]; constructor; eauto.
  - apply MAltL; eauto.
  - apply MAltR; eauto.
  - discriminate.
  - destruct s1 as [ | a s1'].
    + simpl in Hs. apply (IH2 c s Hs).
    + injection Hs as -> <-. constructor; eauto.
Qed.

Lemma matches_Matches s : forall r, matches r s = true <-> Matches r s.
Proof.
  induction s as [ | c s IH]; intros r; simpl.
  - apply nullable_Matches.
  - rewrite IH. split; [apply deriv_sound | ].
    intros Hm. eapply deriv_complete; eauto.
Qed.

Lemma classes_within_UpTo P n r :
  classes_within P r -> classes_within P (UpTo n r).
Proof. induction n; simpl; auto. Qed.

Lemma Matches_classes_within P r s :
  Matches r s -> classes_within P r -> Forall P s.
Proof.
  induction 1; simpl; intros Hc; auto.
  - destruct Hc. apply Forall_app; auto.
  - destruct Hc; auto.
  - destruct Hc; auto.
  - apply Forall_app; auto.
Qed.

End RegexpFacts.

(** ** Validation *)

Section ValidationFacts.
Import regexp validators.

Lemma alnum_ascii c : alnum c = true -> is_ascii c.
Proof.
  unfold is_ascii. destruct c as [b0 b1 b2 b3 b4 b5 b6 b7].
  destruct b0, b1, b2, b3, b4, b5, b6, b7; vm_compute;
    intros; try discriminate; reflexivity.
Qed.

Lemma alnum_hyphen_ascii c : alnum_hyphen c = true -> is_ascii c.
Proof.
  unfold is_ascii. destruct c as [b0 b1 b2 b3 b4 b5 b6 b7].
  destruct b0, b1, b2, b3, b4, b5, b6, b7; vm_compute;
    intros; try discriminate; reflexivity.
Qed.

Lemma local_char_ascii c : local_char c = true -> is_ascii c.
Proof.
  unfold is_ascii. destruct c as [b0 b1 b2 b3 b4 b5 b6 b7].
  destruct b0, b1, b2, b3, b4, b5, b6, b7; vm_compute;
    intros; try discriminate; reflexivity.
Qed.

Lemma Lit_ascii a c : is_ascii a -> Ascii.eqb a c = true -> is_ascii c.
Proof. intros Ha Heq. apply Ascii.eqb_eq in Heq. subst. exact Ha. Qed.

Lemma label_ascii : classes_within is_ascii label.
Proof.
  unfold label, Opt. cbn [classes_within].
  refine (conj alnum_ascii (conj (conj _ alnum_ascii) I)).
  apply classes_within_UpTo. exact alnum_hyphen_ascii.
Qed.

(** Only texts of ASCII bytes belong to the language of the email pattern:
    for them the count of characters is the count of bytes. *)
Lemma rxEmail_ascii s : Matches rxEmail s -> Forall is_ascii s.
Proof.
  intros Hm. apply (Matches_classes_within _ _ _ Hm).
  unfold rxEmail, Plus, Lit. cbn [classes_within].
  refine (conj (conj local_char_ascii local_char_ascii)
            (conj _ (conj label_ascii (conj _ label_ascii))));
    intros c; apply Lit_ascii; vm_compute; reflexivity.
Qed.

Lemma RuneCount_ascii s :
  Forall is_ascii (list_ascii_of_string s) ->
  utf8.RuneCountInString s = String.length s.
Proof.
  induction s as [ | b s IH]; cbn [list_ascii_of_string]; intros Ha.
  - reflexivity.
  - inversion Ha as [ | ? ? Hb Hs]; subst.
    cbn [utf8.RuneCountInString String.length].
    unfold is_ascii in Hb. apply N.ltb_lt in Hb. rewrite Hb.
    f_equal. auto.
Qed.

Lemma IsEmailValid_spec email : IsEmailValid email = true <-> valid_email email.
Proof.
  unfold IsEmailValid, valid_email, MatchString.
  split.
  - intros Hv.
    destruct (String.length email <? 3)%nat eqn:Hlo; [discriminate | ].
    destruct (254 <? String.length email)%nat eqn:Hhi; [discriminate | ].
    destruct (matches rxEmail (list_ascii_of_string email)) eqn:Hm; [ | discriminate].
    apply matches_Matches in Hm.
    rewrite (RuneCount_ascii _ (rxEmail_ascii _ Hm)).
    apply Nat.ltb_ge in Hlo, Hhi. auto.
  - intros [Hlen Hm].
    rewrite (RuneCount_ascii _ (rxEmail_ascii _ Hm)) in Hlen.
    apply matches_Matches in Hm. rewrite Hm.
    destruct Hlen as [Hlo Hhi].
    apply Nat.ltb_ge in Hlo, Hhi. rewrite Hlo, Hhi. reflexivity.
Qed.

Lemma IsEmailValid_false email : IsEmailValid email = false <-> ~ valid_email email.
Proof.
  rewrite <- IsEmailValid_spec. destruct (IsEmailValid email); split; auto;
    try discriminate. intros Hn. exfalso; auto.
Qed.

End ValidationFacts.

Lemma ValidateUser_rules (r : User) (res : option error) :
  validators.ValidateUser r = res <-> validate_spec r res.
Proof.
  unfold validators.ValidateUser, errors.New. split.
  - intros <-.
    destruct (String.eqb_spec (Email r) "") as [He | He];
      [apply rule_email_required; exact He | ].
    destruct (validators.IsEmailValid (Email r)) eqn:Hv; simpl.
    + apply IsEmailValid_spec in Hv.
      destruct (String.eqb_spec (FirstName r) "") as [Hf | Hf];
        [apply rule_first_name; assumption | ].
      destruct (String.eqb_spec (LastName r) "") as [Hl | Hl];
        [apply rule_last_name; assumption | apply rule_ok; assumption].
    + apply IsEmailValid_false in Hv. apply rule_email_format; assumption.
  - intros Hs.
    destruct Hs as [He | He Hv | He Hv Hf | He Hv Hf Hl | He Hv Hf Hl].
    + rewrite He. reflexivity.
    + apply String.eqb_neq in He. apply IsEmailValid_false in Hv.
      rewrite He, Hv. reflexivity.
    + apply String.eqb_neq in He. apply IsEmailValid_spec in Hv.
      rewrite He, Hv, Hf. reflexivity.
    + apply String.eqb_neq in He, Hf. apply IsEmailValid_spec in Hv.
      rewrite He, Hv, Hf, Hl. reflexivity.
    + apply String.eqb_neq in He, Hf, Hl. apply IsEmailValid_spec in Hv.
      rewrite He, Hv, Hf, Hl. reflexivity.
Qed.

(** C1. [ValidateUser] is a function of the record alone, defined on every
    record, and its result is the one the rules of the specification give
    when they are checked in order, the first failing rule deciding: an empty
    email is reported as required; then an email outside the grammar or the
    bound of 3 to 254 characters as an invalid format; then an empty first
    name; then an empty last name; a record passing all four is accepted.
    The rules give every record exactly one result. *)
Theorem C1_ValidateUser_rules (r : User) :
  (forall res, validators.ValidateUser r = res <-> validate_spec r res)
  /\ (exists res, validate_spec r res
        /\ forall res', validate_spec r res' -> res' = res).
Proof.
  split; [intros res; apply ValidateUser_rules | ].
  exists (validators.ValidateUser r). split.
  - apply ValidateUser_rules. reflexivity.
  - intros res' Hs. apply ValidateUser_rules in Hs. congruence.
Qed.

Lemma C1_witness :
  validate_spec (mkUser "a@b.com" "A" "") (Some "last name is required").
Proof.
  apply (proj1 (proj1 (C1_ValidateUser_rules (mkUser "a@b.com" "A" "")) _)).
  vm_compute. reflexivity.
Defined.

(** The bound on the length is at work: of two texts of the pattern, the
    one of 254 bytes is valid and the one of 255 bytes is not; a label has at
    most 63 bytes; a byte outside ASCII is in no class. *)
Example IsEmailValid_bounds :
  validators.IsEmailValid "a@b" = true
  /\ validators.IsEmailValid "@b" = false
  /\ String.length (long_prefix ++ letters 60 "e") = 254%nat
  /\ validators.IsEmailValid (long_prefix ++ letters 60 "e") = true
  /\ regexp.MatchString validators.rxEmail (long_prefix ++ letters 61 "e") = true
  /\ validators.IsEmailValid (long_prefix ++ letters 61 "e") = false
  /\ validators.IsEmailValid ("a@" ++ letters 64 "b") = false
  /\ validators.IsEmailValid ("a@b-.com") = false
  /\ validators.IsEmailValid (String (ascii_of_N 195) (String (ascii_of_N 169) "@b.com"))
     = false.
Proof. repeat split; vm_compute; reflexivity. Qed.

(** The rules at the records of the specification's examples. *)
Example ValidateUser_ok :
  validators.ValidateUser (mkUser "a@b.com" "A" "B") = None.
Proof. vm_compute. reflexivity. Qed.

Example ValidateUser_email_first :
  validators.ValidateUser (mkUser "" "" "") = Some "email is required".
Proof. reflexivity. Qed.

Example ValidateUser_format_before_names :
  validators.ValidateUser (mkUser "not-an-email" "" "") = Some "invalid email format"
  /\ validators.ValidateUser (mkUser "a@" "A" "B") = Some "invalid email format".
Proof. split; vm_compute; reflexivity. Qed.

Example ValidateUser_first_before_last :
  validators.ValidateUser (mkUser "a@b.com" "" "") = Some "first name is required"
  /\ validators.ValidateUser (mkUser "a@b.com" "A" "") = Some "last name is required".
Proof. split; vm_compute; reflexivity. Qed.

(** ** The table *)

Section TableFacts.
Import dynamodb.

Lemma call_items c : items (snd (call c)) = items c.
Proof. unfold call. destruct (faults c); reflexivity. Qed.

Lemma lookup_put_eq it l : lookup (key it) (put it l) = Some it.
Proof.
  unfold lookup. induction l as [ | x l IH]; simpl.
  - rewrite String.eqb_refl. reflexivity.
  - destruct (String.eqb (key x) (key it)) eqn:Hk; simpl.
    + rewrite String.eqb_refl. reflexivity.
    + rewrite Hk. exact IH.
Qed.

Lemma lookup_remove k l : lookup k (remove k l) = None.
Proof.
  unfold lookup, remove. induction l as [ | x l IH]; simpl; [reflexivity | ].
  destruct (String.eqb (key x) k) eqn:Hk; simpl; [exact IH | ].
  rewrite Hk. exact IH.
Qed.

Lemma lookup_Some k l it : lookup k l = Some it -> it ∈ l /\ key it = k.
Proof.
  unfold lookup. intros Hf. apply List.find_some in Hf as [Hin Hk].
  apply String.eqb_eq in Hk. split; [apply list_elem_of_In; exact Hin | exact Hk].
Qed.

Lemma lookup_None k l : lookup k l = None <-> k ∉ key <$> l.
Proof.
  unfold lookup. induction l as [ | x l IH]; simpl.
  - split; [intros _; apply not_elem_of_nil | reflexivity].
  - rewrite ?fmap_cons, not_elem_of_cons.
    destruct (String.eqb_spec (key x) k) as [Hk | Hk].
    + split; [discriminate | intros [Hne _]; congruence].
    + rewrite IH. split; [intros Hn; split; [congruence | exact Hn] | tauto].
Qed.

Lemma keys_put k it l : k ∈ key <$> put it l -> k = key it \/ k ∈ key <$> l.
Proof.
  induction l as [ | x l IH]; simpl.
  - rewrite list_elem_of_singleton. auto.
  - destruct (String.eqb_spec (key x) (key it)) as [Hk | Hk];
      rewrite ?fmap_cons, !elem_of_cons; [tauto | ].
    intros [-> | Hin]; [tauto | ]. destruct (IH Hin); tauto.
Qed.

Lemma NoDup_keys_put it l : NoDup (key <$> l) -> NoDup (key <$> put it l).
Proof.
  induction l as [ | x l IH]; simpl; intros Hnd.
  - apply NoDup_singleton.
  - destruct (String.eqb_spec (key x) (key it)) as [Hk | Hk].
    + rewrite ?fmap_cons in *. rewrite <- Hk. exact Hnd.
    + rewrite ?fmap_cons in *. apply NoDup_cons in Hnd as [Hx Hnd].
      apply NoDup_cons. split; [ | auto].
      intros Hin. apply keys_put in Hin as [Heq | Hin]; auto.
Qed.

Lemma NoDup_keys_remove k l : NoDup (key <$> l) -> NoDup (key <$> remove k l).
Proof.
  unfold remove. induction l as [ | x l IH]; simpl; intros Hnd; [exact Hnd | ].
  rewrite ?fmap_cons in Hnd. apply NoDup_cons in Hnd as [Hx Hnd].
  destruct (negb (String.eqb (key x) k)); [ | auto].
  rewrite ?fmap_cons. apply NoDup_cons. split; [ | auto].
  intros Hin. apply Hx. apply list_elem_of_fmap in Hin as (y & Hy & Hin).
  apply list_elem_of_fmap. exists y. split; [exact Hy | ].
  apply list_elem_of_In in Hin. apply List.filter_In in Hin as [Hin _].
  apply list_elem_of_In. exact Hin.
Qed.

Lemma unique_emails_NoDup l : unique_emails l <-> NoDup (key <$> l).
Proof.
  unfold unique_emails. rewrite NoDup_alt. split.
  - intros Hu i j k Hi Hj.
    rewrite list_lookup_fmap in Hi, Hj.
    destruct (l !! i) as [a | ] eqn:Ha; [ | discriminate].
    destruct (l !! j) as [b | ] eqn:Hb; [ | discriminate].
    simpl in Hi, Hj. apply (Hu i j a b); congruence.
  - intros Hn i j a b Ha Hb Hk.
    apply (Hn i j (key a)); rewrite list_lookup_fmap.
    + rewrite Ha. reflexivity.
    + rewrite Hb, Hk. reflexivity.
Qed.

(** Under uniqueness, the item found under an email is the only stored item
    with that email. *)
Lemma unique_lookup l it :
  unique_emails l -> it ∈ l -> lookup (key it) l = Some it.
Proof.
  intros Hu Hin. destruct (lookup (key it) l) as [it' | ] eqn:Hl.
  - apply lookup_Some in Hl as [Hin' Hk].
    apply list_elem_of_lookup in Hin as [i Hi].
    apply list_elem_of_lookup in Hin' as [j Hj].
    assert (i = j) by (apply (Hu i j it it'); auto).
    subst. congruence.
  - apply lookup_None in Hl. exfalso. apply Hl.
    apply list_elem_of_fmap. exists it. auto.
Qed.

End TableFacts.

(** ** The repository over the table *)

Section RepositoryFacts.
Import dynamodb dynamodbattribute repository repository.DynamoDBUserRepository.

Lemma append_inj_r (p a b : string) : p ++ a = p ++ b -> a = b.
Proof. induction p as [ | c p IH]; simpl; intros Heq; [exact Heq | ]. injection Heq. exact IH. Qed.

Lemma Errorf_inj tag e1 e2 : Errorf tag e1 = Errorf tag e2 -> e1 = e2.
Proof.
  unfold Errorf. intros Heq. injection Heq as Heq.
  apply append_inj_r in Heq. apply (append_inj_r ": ") in Heq. exact Heq.
Qed.

Lemma table_served repo : table (served repo) = table repo.
Proof. unfold table, served. simpl. apply call_items. Qed.

(** [FetchUser] by cases on the transport and on the table. *)
Lemma FetchUser_eq repo email :
  FetchUser repo email =
    match fst (call (client repo)) with
    | Some e => ((None, Errorf ErrorFailedToFetchRecord e), served repo)
    | None =>
        match lookup email (table repo) with
        | None => ((None, None), served repo)
        | Some (ItemUser u) => ((Some u, None), served repo)
        | Some (ItemOther _ why) =>
            ((None, Errorf ErrorFailedToUnmarshalRecord why), served repo)
        end
    end.
Proof.
  unfold FetchUser, GetItem, served, table.
  pose proof (call_items (client repo)) as Hit.
  destruct (call (client repo)) as [[e | ] c]; simpl in *; [reflexivity | ].
  rewrite Hit. destruct (lookup email (items (client repo))) as [[u | k why] | ];
    reflexivity.
Qed.

Ltac by_transport repo :=
  destruct repo as [[its fs] tn];
  unfold CreateUser, UpdateUser, DeleteUser, FetchUser, GetItem, PutItem, DeleteItem,
    put_user, MarshalMap, UnmarshalMap, served, table, call;
  cbn -[lookup put remove String.append];
  destruct fs as [ | [e1 | ] fs]; cbn -[lookup put remove String.append];
    try reflexivity;
  match goal with
  | |- context [lookup ?k its] =>
      destruct (lookup k its) as [[u | k' why] | ];
        cbn -[lookup put remove String.append]; try reflexivity
  end;
  try (destruct fs as [ | [e2 | ] fs]; cbn -[lookup put remove String.append];
       reflexivity).

Lemma CreateUser_eq repo user :
  CreateUser repo user =
    match fst (call (client repo)) with
    | Some e => ((None, Errorf ErrorFailedToFetchRecord e), served repo)
    | None =>
        match lookup (Email user) (table repo) with
        | None => put_user (served repo) user
        | Some (ItemUser u) => ((None, Some ErrorUserAlreadyExists), served repo)
        | Some (ItemOther _ why) =>
            ((None, Errorf ErrorFailedToUnmarshalRecord why), served repo)
        end
    end.
Proof. by_transport repo. Qed.

Lemma UpdateUser_eq repo user :
  UpdateUser repo user =
    match fst (call (client repo)) with
    | Some e => ((None, Errorf ErrorFailedToFetchRecord e), served repo)
    | None =>
        match lookup (Email user) (table repo) with
        | None => ((None, Some ErrorUserDoesNotExist), served repo)
        | Some (ItemUser u) => put_user (served repo) user
        | Some (ItemOther _ why) =>
            ((None, Errorf ErrorFailedToUnmarshalRecord why), served repo)
        end
    end.
Proof. by_transport repo. Qed.

Lemma DeleteUser_eq repo email :
  DeleteUser repo email =
    match fst (call (client repo)) with
    | Some e => (Errorf ErrorFailedToFetchRecord e, served repo)
    | None =>
        match lookup email (table repo) with
        | None => (Some ErrorUserDoesNotExist, served repo)
        | Some (ItemUser u) =>
            match fst (call (client (served repo))) with
            | Some e => (Errorf ErrorCouldNotDeleteItem e, served (served repo))
            | None =>
                (None,
                 mk (mkDynamoDB (remove email (table repo))
                       (faults (client (served (served repo)))))
                    (tableName repo))
            end
        | Some (ItemOther _ why) =>
            (Errorf ErrorFailedToUnmarshalRecord why, served repo)
        end
    end.
Proof. by_transport repo. Qed.

End RepositoryFacts.

Section RepositoryClaims.
Import dynamodb dynamodbattribute repository repository.DynamoDBUserRepository.

(** The tags keep the failures of a fetch apart. *)
Lemma Unmarshal_not_Fetch why e :
  Errorf ErrorFailedToUnmarshalRecord why <> Errorf ErrorFailedToFetchRecord e.
Proof. unfold Errorf. simpl. discriminate. Qed.

(** C4. [FetchUser] answers a key under which the table has no item with an
    absent user and no error, provided the call to the store goes through;
    its error carries the tag of a failed fetch exactly when the call fails
    in transport; so the only error it can report for an absent record is
    that transport failure.  The table is left as it was. *)
Theorem C4_FetchUser_absent_is_no_error (repo : t) (email : string) :
  (lookup email (table repo) = None -> answers repo ->
     fst (FetchUser repo email) = (None, None)) /\
  (forall e, snd (fst (FetchUser repo email)) = Errorf ErrorFailedToFetchRecord e
             <-> fails_with repo e) /\
  (lookup email (table repo) = None ->
     forall err, snd (fst (FetchUser repo email)) = Some err ->
       exists e, fails_with repo e /\ Some err = Errorf ErrorFailedToFetchRecord e) /\
  table (snd (FetchUser repo email)) = table repo.
Proof.
  rewrite FetchUser_eq. unfold answers, fails_with.
  destruct (fst (call (client repo))) as [e0 | ].
  - cbn [fst snd]. split; [ | split; [ | split]].
    + discriminate.
    + intros e. split; intros He; [apply Errorf_inj in He | ]; congruence.
    + intros _ err Herr. exists e0. split; [reflexivity | congruence].
    + apply table_served.
  - destruct (lookup email (table repo)) as [[u | k why] | ]; cbn [fst snd];
      (split; [ | split; [ | split]]);
      try discriminate; try (apply table_served); try reflexivity;
      try (intros e; split; intros He; discriminate He).
Qed.

Lemma C4_witness :
  fst (FetchUser empty_repo "missing@x.com") = (None, None).
Proof.
  apply (proj1 (C4_FetchUser_absent_is_no_error empty_repo "missing@x.com"));
    reflexivity.
Defined.

Lemma put_user_table repo user res repo' :
  put_user repo user = (res, repo') ->
  (snd res = None /\ fst res = Some user
   /\ table repo' = put (ItemUser user) (table repo))
  \/ (snd res <> None /\ fst res = None /\ table repo' = table repo).
Proof.
  unfold put_user. destruct (fst (call (client repo))) as [e | ];
    intros Heq; injection Heq as <- <-.
  - right. cbn [fst snd]. rewrite table_served.
    repeat split. unfold Errorf. discriminate.
  - left. repeat split.
Qed.

(** C2. [CreateUser] looks the email up before it writes.  When the table
    holds an item under the email of the record, it returns no record and an
    error, and leaves the table as it was, whatever the transport does; when
    that item is a user record and the store answers the lookup, the error is
    [ErrorUserAlreadyExists].  So after a create that succeeded, a second
    create with the same email, answered by the store, fails with
    [ErrorUserAlreadyExists] and leaves the table as the first create left
    it. *)
Theorem C2_CreateUser_existing :
  (forall (repo : t) (r : User) (it : Item),
      lookup (Email r) (table repo) = Some it ->
      fst (fst (CreateUser repo r)) = None
      /\ snd (fst (CreateUser repo r)) <> None
      /\ table (snd (CreateUser repo r)) = table repo) /\
  (forall (repo : t) (r stored : User),
      lookup (Email r) (table repo) = Some (ItemUser stored) ->
      answers repo ->
      CreateUser repo r = ((None, Some ErrorUserAlreadyExists), served repo)) /\
  (forall (repo : t) (r r' : User),
      snd (fst (CreateUser repo r)) = None ->
      Email r' = Email r ->
      answers (snd (CreateUser repo r)) ->
      fst (CreateUser (snd (CreateUser repo r)) r')
        = (None, Some ErrorUserAlreadyExists)
      /\ table (snd (CreateUser (snd (CreateUser repo r)) r'))
         = table (snd (CreateUser repo r))).
Proof.
  split; [ | split].
  - intros repo r it Hl. rewrite CreateUser_eq, Hl.
    destruct (fst (call (client repo))) as [e | ]; [ | destruct it];
      cbn [fst snd]; rewrite table_served; repeat split; discriminate.
  - intros repo r stored Hl Ha. rewrite CreateUser_eq, Hl.
    unfold answers in Ha. rewrite Ha. reflexivity.
  - intros repo r r' Hok Hmail Ha.
    assert (Hl : lookup (Email r') (table (snd (CreateUser repo r)))
                 = Some (ItemUser r)).
    { revert Hok. rewrite CreateUser_eq.
      destruct (fst (call (client repo))) as [e | ]; [discriminate | ].
      destruct (lookup (Email r) (table repo)) as [[u | k why] | ];
        try discriminate.
      destruct (put_user (served repo) r) as [res repo1] eqn:Hput.
      apply put_user_table in Hput as [(_ & _ & Ht) | (Hne & _ & _)];
        cbn [fst snd]; [ | intros; contradiction].
      intros _. rewrite Ht, Hmail. apply (lookup_put_eq (ItemUser r)). }
    rewrite (CreateUser_eq (snd (CreateUser repo r)) r'), Hl.
    unfold answers in Ha. rewrite Ha. cbn [fst snd].
    split; [reflexivity | apply table_served].
Qed.

Lemma C2_witness :
  CreateUser alice_repo alice2
    = ((None, Some ErrorUserAlreadyExists), served alice_repo)
  /\ fst (CreateUser (snd (CreateUser empty_repo alice)) alice2)
     = (None, Some ErrorUserAlreadyExists).
Proof.
  split.
  - apply (proj1 (proj2 C2_CreateUser_existing) alice_repo alice2 alice);
      reflexivity.
  - apply (proj2 (proj2 C2_CreateUser_existing) empty_repo alice alice2);
      reflexivity.
Defined.

(** What [UpdateUser] and [DeleteUser] of the repository do for an email
    under which the table has no item. *)
Lemma UpdateUser_absent repo r :
  lookup (Email r) (table repo) = None ->
  fst (fst (UpdateUser repo r)) = None
  /\ table (snd (UpdateUser repo r)) = table repo
  /\ (answers repo -> snd (fst (UpdateUser repo r)) = Some ErrorUserDoesNotExist)
  /\ (forall e, fails_with repo e ->
        snd (fst (UpdateUser repo r)) = Errorf ErrorFailedToFetchRecord e).
Proof.
  intros Hl. rewrite UpdateUser_eq, Hl. unfold answers, fails_with.
  destruct (fst (call (client repo))) as [e | ]; cbn [fst snd];
    rewrite table_served; repeat split; try discriminate; congruence.
Qed.

Lemma DeleteUser_absent repo email :
  lookup email (table repo) = None ->
  table (snd (DeleteUser repo email)) = table repo
  /\ (answers repo -> fst (DeleteUser repo email) = Some ErrorUserDoesNotExist)
  /\ (forall e, fails_with repo e ->
        fst (DeleteUser repo email) = Errorf ErrorFailedToFetchRecord e).
Proof.
  intros Hl. rewrite DeleteUser_eq, Hl. unfold answers, fails_with.
  destruct (fst (call (client repo))) as [e | ]; cbn [fst snd];
    rewrite table_served; repeat split; try discriminate; congruence.
Qed.

(** The repository reports [ErrorUserDoesNotExist] for no other failure. *)
Lemma UpdateUser_NotFound_only repo r :
  snd (fst (UpdateUser repo r)) = Some ErrorUserDoesNotExist ->
  answers repo /\ lookup (Email r) (table repo) = None.
Proof.
  rewrite UpdateUser_eq. unfold answers.
  destruct (fst (call (client repo))) as [e | ]; [discriminate | ].
  destruct (lookup (Email r) (table repo)) as [[u | k why] | ];
    try discriminate; [ | auto].
  unfold put_user. destruct (fst (call (client (served repo)))); discriminate.
Qed.

Lemma DeleteUser_NotFound_only repo email :
  fst (DeleteUser repo email) = Some ErrorUserDoesNotExist ->
  answers repo /\ lookup email (table repo) = None.
Proof.
  rewrite DeleteUser_eq. unfold answers.
  destruct (fst (call (client repo))) as [e | ]; [discriminate | ].
  destruct (lookup email (table repo)) as [[u | k why] | ];
    try discriminate; [ | auto].
  destruct (fst (call (client (served repo)))); discriminate.
Qed.

End RepositoryClaims.

(** ** Uniqueness of emails *)

Section Uniqueness.
Import dynamodb dynamodbattribute repository repository.DynamoDBUserRepository.
Context `{Decoder}.

Lemma Scan_items c limit start : items (snd (Scan c limit start)) = items c.
Proof.
  unfold Scan. pose proof (call_items c) as Hit.
  destruct (call c) as [[e | ] c']; cbn [fst snd] in *; [exact Hit | ].
  destruct (limit <=? 0)%Z; [exact Hit | ].
  destruct start; exact Hit.
Qed.

Lemma FetchUsers_table repo limit key :
  table (snd (FetchUsers repo limit key)) = table repo.
Proof.
  unfold FetchUsers.
  destruct (if String.eqb key "" then (KeyNil, None) else UnmarshalKey key)
    as [startKey [e | ]]; [reflexivity | ].
  pose proof (Scan_items (client repo) limit startKey) as Hit.
  destruct (Scan (client repo) limit startKey) as [[[resItems resKey] err] c].
  cbn [snd] in Hit.
  destruct err as [e | ]; [exact Hit | ].
  destruct (UnmarshalListOfMaps resItems) as [users [e | ]]; [exact Hit | ].
  destruct resKey; try exact Hit;
    destruct (MarshalKey _) as [keyBytes [e | ]]; exact Hit.
Qed.

(** Every operation leaves the table as it was, puts one item, or removes
    the items under one key. *)
Lemma perform_table (repo : t) (op : recording.Call) :
  table (perform repo op) = table repo
  \/ (exists it, table (perform repo op) = put it (table repo))
  \/ (exists k, table (perform repo op) = remove k (table repo)).
Proof.
  destruct op as [email | limit key | user | user | email]; cbn [perform].
  - left. change (repository.FetchUser repo email) with (FetchUser repo email).
    rewrite FetchUser_eq.
    destruct (fst (call (client repo))) as [e | ];
      [ | destruct (lookup email (table repo)) as [[u | k why] | ]];
      apply table_served.
  - left. apply FetchUsers_table.
  - change (repository.CreateUser repo user) with (CreateUser repo user).
    rewrite CreateUser_eq.
    destruct (fst (call (client repo))) as [e | ];
      [left; apply table_served | ].
    destruct (lookup (Email user) (table repo)) as [[u | k why] | ];
      try (left; apply table_served).
    destruct (put_user (served repo) user) as [res repo1] eqn:Hput.
    apply put_user_table in Hput as [(_ & _ & Ht) | (_ & _ & Ht)];
      cbn [snd]; rewrite Ht, table_served; eauto.
  - change (repository.UpdateUser repo user) with (UpdateUser repo user).
    rewrite UpdateUser_eq.
    destruct (fst (call (client repo))) as [e | ];
      [left; apply table_served | ].
    destruct (lookup (Email user) (table repo)) as [[u | k why] | ];
      try (left; apply table_served).
    destruct (put_user (served repo) user) as [res repo1] eqn:Hput.
    apply put_user_table in Hput as [(_ & _ & Ht) | (_ & _ & Ht)];
      cbn [snd]; rewrite Ht, table_served; eauto.
  - change (repository.DeleteUser repo email) with (DeleteUser repo email).
    rewrite DeleteUser_eq.
    destruct (fst (call (client repo))) as [e | ];
      [left; apply table_served | ].
    destruct (lookup email (table repo)) as [[u | k why] | ];
      try (left; apply table_served).
    destruct (fst (call (client (served repo)))) as [e | ]; cbn [snd].
    + left. rewrite !table_served. reflexivity.
    + right. right. exists email. reflexivity.
Qed.

Lemma perform_unique (repo : t) (op : recording.Call) :
  unique_emails (table repo) -> unique_emails (table (perform repo op)).
Proof.
  rewrite !unique_emails_NoDup. intros Hnd.
  destruct (perform_table repo op) as [-> | [[it ->] | [k ->]]].
  - exact Hnd.
  - apply NoDup_keys_put. exact Hnd.
  - apply NoDup_keys_remove. exact Hnd.
Qed.

Lemma run_unique (ops : list recording.Call) :
  forall repo : t, unique_emails (table repo) -> unique_emails (table (run repo ops)).
Proof.
  unfold run. induction ops as [ | op ops IH]; intros repo Hu; simpl.
  - exact Hu.
  - apply IH. apply perform_unique. exact Hu.
Qed.

(** C5. Starting from a table in which no two items share an email, after
    every prefix of every sequence of repository operations (fetches,
    creates, updates, deletes, whatever the transport does to each call) no
    two items of the table share an email, and the item found under an email
    is the only stored item with that email. *)
Theorem C5_unique_emails_invariant
  (repo : t) (ops : list recording.Call) (n : nat) :
  unique_emails (table repo) ->
  unique_emails (table (run repo (take n ops)))
  /\ forall it, it ∈ table (run repo (take n ops)) ->
       lookup (key it) (table (run repo (take n ops))) = Some it.
Proof.
  intros Hu. pose proof (run_unique (take n ops) repo Hu) as Hn.
  split; [exact Hn | ]. intros it Hin. apply unique_lookup; assumption.
Qed.

End Uniqueness.

(** ** Response formatting *)

Section ResponseFacts.
Import json events handlers.

Lemma append_assoc (a b c : string) : (a ++ b) ++ c = a ++ b ++ c.
Proof.
  induction a as [ | x a IH]; [reflexivity | ].
  change (String x ((a ++ b) ++ c) = String x (a ++ b ++ c)). f_equal. exact IH.
Qed.

Lemma Marshal_error msg :
  Marshal (OfErrorBody (mkErrorBody (StringPtr msg))) = (error_json msg, None).
Proof. reflexivity. Qed.

Lemma Marshal_user u : Marshal (OfUser (Some u)) = (user_json u, None).
Proof.
  unfold Marshal, Marshal_Any, Marshal_ptr, Marshal, Marshal_User, user_json.
  apply (f_equal (fun text => (text, None))).
  unfold object, member, join, appendString, quoted.
  rewrite !append_assoc. reflexivity.
Qed.

Lemma apiResponse_marshalled status body text :
  Marshal body = (text, None) ->
  apiResponse status body = (mkResponse status json_headers text, None).
Proof. unfold apiResponse. intros ->. reflexivity. Qed.

Lemma apiResponse_fallback status body text e :
  Marshal body = (text, Some e) ->
  apiResponse status body
    = (mkResponse 500 json_headers (error_json "Failed to marshal response body"),
       None).
Proof.
  unfold apiResponse. intros ->. reflexivity.
Qed.

Lemma apiResponse_error status msg :
  apiResponse status (OfErrorBody (mkErrorBody (StringPtr msg)))
    = (mkResponse status json_headers (error_json msg), None).
Proof. apply apiResponse_marshalled, Marshal_error. Qed.

End ResponseFacts.

(** C9. For every status and body [apiResponse] returns a response and no
    error, with the JSON content type among the headers.  When the body
    marshals, the response has the given status and the JSON text of the body;
    when marshalling fails, the status is 500, whatever status was given, and
    the body is the JSON object whose one member [error] is the text
    [Failed to marshal response body]: the text
    [{"error": "Failed to marshal response body"}] without the space after
    the colon. *)
Theorem C9_apiResponse_always_formats (status : Z) (body : handlers.Any) :
  let resp := fst (handlers.apiResponse status body) in
  snd (handlers.apiResponse status body) = None
  /\ events.Headers resp !! "Content-Type" = Some "application/json"
  /\ match snd (json.Marshal body) with
     | None =>
         events.StatusCode resp = status
         /\ events.Body resp = fst (json.Marshal body)
     | Some _ =>
         events.StatusCode resp = 500%Z
         /\ events.Body resp
            = "{" ++ quoted "error" ++ ":"
                  ++ quoted "Failed to marshal response body" ++ "}"
         /\ events.Body resp
            = compact ("{" ++ quoted "error" ++ ": "
                           ++ quoted "Failed to marshal response body" ++ "}")
     end.
Proof.
  destruct (json.Marshal body) as [text [e | ]] eqn:Hm; cbn [fst snd].
  - rewrite (apiResponse_fallback _ _ _ _ Hm). cbn [fst snd]. repeat split.
  - rewrite (apiResponse_marshalled _ _ _ Hm). cbn [fst snd]. repeat split.
Qed.

(** Marshalling does fail for some bodies, and the fallback is then sent. *)
Example apiResponse_unsupported :
  handlers.apiResponse 200 (handlers.OfUnsupported "chan int")
  = (events.mkResponse 500 json_headers
       ("{" ++ quoted "error" ++ ":"
            ++ quoted "Failed to marshal response body" ++ "}"), None).
Proof. reflexivity. Qed.

(** ** The handlers, over any repository *)

Section HandlerFacts.
Import events handlers handlers.UserHandler.
Context {R : Type} `{repository.UserRepository R}.

(** The limit the handler computes is the limit of the specification. *)
Lemma limit_page_limit (params : gmap string string) :
  (if negb (String.eqb (index params "limit") "") then
     match strconv.Atoi (index params "limit") with
     | Some l => if (0 <? l)%Z then l else 10%Z
     | None => 10%Z
     end
   else 10%Z) = page_limit params.
Proof.
  unfold page_limit, index. destruct (params !! "limit") as [text | ]; simpl;
    [ | reflexivity].
  destruct (String.eqb_spec text "") as [-> | Hne]; simpl; [reflexivity | ].
  destruct (strconv.Atoi text) as [l | ]; [ | reflexivity].
  destruct (Z.ltb_spec 0 l), (Z.leb_spec l 0); try reflexivity; lia.
Qed.

Lemma GetUser_by_email (h : t R) (req : APIGatewayProxyRequest) (email : string) :
  index (QueryStringParameters req) "email" = email -> email <> "" ->
  GetUser h req =
    (match fst (repository.FetchUser (userRepo h) email) with
     | (_, Some e) =>
         apiResponse http.StatusBadRequest (OfErrorBody (mkErrorBody (StringPtr e)))
     | (None, None) =>
         apiResponse http.StatusNotFound
           (OfErrorBody (mkErrorBody (StringPtr "User not found")))
     | (Some u, None) => apiResponse http.StatusOK (OfUser (Some u))
     end, mk (snd (repository.FetchUser (userRepo h) email))).
Proof.
  intros Hidx Hne. unfold GetUser. rewrite Hidx.
  apply String.eqb_neq in Hne. rewrite Hne. cbn [negb].
  destruct (repository.FetchUser (userRepo h) email) as [[[u | ] [e | ]] repo];
    reflexivity.
Qed.

Lemma GetUser_page (h : t R) (req : APIGatewayProxyRequest) :
  index (QueryStringParameters req) "email" = "" ->
  let limit := page_limit (QueryStringParameters req) in
  let key := index (QueryStringParameters req) "lastEvaluatedKey" in
  GetUser h req =
    (match fst (repository.FetchUsers (userRepo h) limit key) with
     | (_, Some e) =>
         apiResponse http.StatusBadRequest (OfErrorBody (mkErrorBody (StringPtr e)))
     | ((users, token), None) =>
         apiResponse http.StatusOK (OfMap (page_body users token))
     end, mk (snd (repository.FetchUsers (userRepo h) limit key))).
Proof.
  intros Hidx limit key. unfold GetUser. rewrite Hidx. cbn [String.eqb negb].
  rewrite limit_page_limit. fold limit key.
  destruct (repository.FetchUsers (userRepo h) limit key)
    as [[[users token] [e | ]] repo]; [reflexivity | ].
  cbn [fst snd]. unfold page_body.
  destruct (String.eqb_spec token "") as [-> | Hne]; cbn [negb].
  - reflexivity.
  - destruct (decide (token = "")); [contradiction | reflexivity].
Qed.

End HandlerFacts.

Section PageFacts.
Import json events handlers.

Lemma Marshal_User_text u : Marshal u = (user_json u, None).
Proof.
  unfold Marshal, Marshal_User, user_json.
  apply (f_equal (fun text => (text, None))).
  unfold object, member, join, appendString, quoted.
  rewrite !append_assoc. reflexivity.
Qed.

Lemma marshalAll_users (l : list User) :
  marshalAll l = (List.map user_json l, None).
Proof.
  induction l as [ | u l IH]; [reflexivity | ].
  cbn [marshalAll List.map]. rewrite Marshal_User_text, IH. reflexivity.
Qed.

Lemma Marshal_users users : Marshal (OfUsers users) = (users_json users, None).
Proof.
  destruct users as [l | ]; [ | reflexivity].
  unfold Marshal, Marshal_MapValue, Marshal, Marshal_ptr, Marshal, Marshal_list.
  rewrite marshalAll_users. reflexivity.
Qed.

Lemma sortedEntries_users (v : MapValue) :
  sortedEntries ({[ "users" := v ]} : gmap string MapValue) = [("users", v)].
Proof. reflexivity. Qed.

Lemma sortedEntries_page (v w : MapValue) :
  sortedEntries (<[ "lastEvaluatedKey" := w ]> {[ "users" := v ]} : gmap string MapValue)
  = [("lastEvaluatedKey", w); ("users", v)].
Proof. vm_compute. reflexivity. Qed.

Lemma Marshal_page users token :
  Marshal (OfMap (page_body users token)) = (page_json users token, None).
Proof.
  unfold page_body, page_json.
  unfold Marshal at 1, Marshal_Any, Marshal at 1, Marshal_map.
  destruct (decide (token = "")) as [Ht | Ht].
  - rewrite sortedEntries_users. cbn [marshalMembers].
    rewrite Marshal_users.
    unfold object, member, join, appendString, quoted.
    rewrite !append_assoc. reflexivity.
  - rewrite sortedEntries_page. cbn [marshalMembers].
    rewrite Marshal_users.
    change (Marshal (OfString token)) with (appendString token, @None error).
    cbn iota. unfold object, member, join, appendString, quoted.
    rewrite !append_assoc. reflexivity.
Qed.

End PageFacts.

(** Indexing the parameters of a request. *)
Lemma index_Some (params : gmap string string) k v :
  params !! k = Some v -> events.index params k = v.
Proof. unfold events.index. intros ->. reflexivity. Qed.

Lemma index_None (params : gmap string string) k :
  params !! k = None -> events.index params k = "".
Proof. unfold events.index. intros ->. reflexivity. Qed.

(** ** The dispatch on the method *)

Section Dispatch.
Import events handlers.
Context {R : Type} `{repository.UserRepository R} `{Decoder}.

Lemma handler_GET (h : UserHandler.t R) (req : APIGatewayProxyRequest) :
  HTTPMethod req = "GET" -> main.handler h req = UserHandler.GetUser h req.
Proof. unfold main.handler. intros ->. reflexivity. Qed.

Lemma handler_PUT (h : UserHandler.t R) (req : APIGatewayProxyRequest) :
  HTTPMethod req = "PUT" -> main.handler h req = UserHandler.UpdateUser h req.
Proof. unfold main.handler. intros ->. reflexivity. Qed.

Lemma handler_DELETE (h : UserHandler.t R) (req : APIGatewayProxyRequest) :
  HTTPMethod req = "DELETE" -> main.handler h req = UserHandler.DeleteUser h req.
Proof. unfold main.handler. intros ->. reflexivity. Qed.

End Dispatch.

(** The limit of a page at some values of the parameter. *)
Example page_limit_values :
  page_limit ∅ = 10%Z
  /\ page_limit {[ "limit" := "" ]} = 10%Z
  /\ page_limit {[ "limit" := "ten" ]} = 10%Z
  /\ page_limit {[ "limit" := "2.5" ]} = 10%Z
  /\ page_limit {[ "limit" := "0" ]} = 10%Z
  /\ page_limit {[ "limit" := "-3" ]} = 10%Z
  /\ page_limit {[ "limit" := "99999999999999999999" ]} = 10%Z
  /\ page_limit {[ "limit" := "25" ]} = 25%Z
  /\ page_limit {[ "limit" := "+1" ]} = 1%Z.
Proof. repeat split; vm_compute; reflexivity. Qed.

(** ** Reading: one record or a page *)

Section ReadClaims.
Import events handlers handlers.UserHandler recording.
Context {R : Type} `{repository.UserRepository R} `{Decoder}.

(** C6, amended. For every GET request whose [email] parameter is present
    with a value that is not empty, the handler calls [FetchUser] with that
    value and nothing else, and returns no error; an absent record gives 404
    with the body [{"error":"User not found"}], a failure of the repository
    gives 400 with the message of the failure as the [error] member, and a
    record found gives 200 with the JSON text of the record. *)
Theorem C6_GetUser_by_email
  (h : UserHandler.t (recording.t R)) (req : APIGatewayProxyRequest) (email : string) :
  HTTPMethod req = "GET" ->
  QueryStringParameters req !! "email" = Some email ->
  email <> "" ->
  let repo := inner (userRepo h) in
  let out := main.handler h req in
  let resp := fst (fst out) in
  calls (userRepo (snd out)) = (calls (userRepo h) ++ [CallFetchUser email])%list
  /\ inner (userRepo (snd out)) = snd (repository.FetchUser repo email)
  /\ snd (fst out) = None
  /\ Headers resp !! "Content-Type" = Some "application/json"
  /\ match fst (repository.FetchUser repo email) with
     | (_, Some e) => StatusCode resp = 400%Z /\ Body resp = error_json e
     | (None, None) =>
         StatusCode resp = 404%Z
         /\ Body resp = "{" ++ quoted "error" ++ ":" ++ quoted "User not found" ++ "}"
     | (Some u, None) => StatusCode resp = 200%Z /\ Body resp = user_json u
     end.
Proof.
  intros Hm Hp Hne repo out resp. subst out resp. rewrite (handler_GET h req Hm).
  rewrite (GetUser_by_email h req email (index_Some _ _ _ Hp) Hne).
  cbn [repository.FetchUser implements log fst snd userRepo calls inner].
  fold repo.
  destruct (repository.FetchUser repo email) as [[[u | ] [e | ]] repo'];
    cbn [fst snd];
    rewrite ?apiResponse_error, ?(apiResponse_marshalled _ _ _ (Marshal_user _));
    cbn [fst snd StatusCode Body Headers]; repeat split.
Qed.

(** C7. For every GET request without an [email] parameter the handler calls
    [FetchUsers], and nothing else, with the limit of the [limit] parameter
    (10 when it is missing, does not parse or is not positive) and the
    [lastEvaluatedKey] parameter, and returns no error; a failure of the
    repository gives 400, a success gives 200 with a body holding the records
    under [users] and the member [lastEvaluatedKey] exactly when the
    repository returned a token that is not empty. *)
Theorem C7_GetUser_page
  (h : UserHandler.t (recording.t R)) (req : APIGatewayProxyRequest) :
  HTTPMethod req = "GET" ->
  QueryStringParameters req !! "email" = None ->
  let limit := page_limit (QueryStringParameters req) in
  let key := index (QueryStringParameters req) "lastEvaluatedKey" in
  let repo := inner (userRepo h) in
  let out := main.handler h req in
  let resp := fst (fst out) in
  calls (userRepo (snd out)) = (calls (userRepo h) ++ [CallFetchUsers limit key])%list
  /\ inner (userRepo (snd out)) = snd (repository.FetchUsers repo limit key)
  /\ snd (fst out) = None
  /\ match fst (repository.FetchUsers repo limit key) with
     | (_, Some e) => StatusCode resp = 400%Z /\ Body resp = error_json e
     | ((users, token), None) =>
         StatusCode resp = 200%Z
         /\ fst out = apiResponse 200 (OfMap (page_body users token))
         /\ page_body users token !! "users" = Some (OfUsers users)
         /\ (token = "" -> page_body users token !! "lastEvaluatedKey" = None)
         /\ (token <> "" ->
               page_body users token !! "lastEvaluatedKey" = Some (OfString token))
         /\ Body resp = page_json users token
     end.
Proof.
  intros Hm Hp limit key repo out resp. subst out resp.
  rewrite (handler_GET h req Hm).
  rewrite (GetUser_page h req (index_None _ _ Hp)).
  cbn [repository.FetchUsers implements log fst snd userRepo calls inner].
  fold limit key repo.
  destruct (repository.FetchUsers repo limit key) as [[[users token] [e | ]] repo'];
    cbn [fst snd];
    rewrite ?apiResponse_error, ?(apiResponse_marshalled _ _ _ (Marshal_page _ _));
    cbn [fst snd StatusCode Body Headers]; repeat split.
  - unfold page_body. destruct (decide (token = "")); reflexivity.
  - intros ->. reflexivity.
  - intros Hne. unfold page_body.
    destruct (decide (token = "")); [contradiction | reflexivity].
Qed.

(** C10. Every GET request makes exactly one call to the repository.  It is
    [FetchUser] only when the [email] parameter is present with a value that
    is not empty; otherwise it is [FetchUsers].  In particular a request
    whose [email] parameter is present and empty is answered with a page. *)
Theorem C10_empty_email_is_paged
  (h : UserHandler.t (recording.t R)) (req : APIGatewayProxyRequest) :
  HTTPMethod req = "GET" ->
  let params := QueryStringParameters req in
  let after := calls (userRepo (snd (main.handler h req))) in
  (exists c, after = (calls (userRepo h) ++ [c])%list
     /\ match c with
        | CallFetchUser email => params !! "email" = Some email /\ email <> ""
        | CallFetchUsers limit key =>
            (params !! "email" = None \/ params !! "email" = Some "")
            /\ limit = page_limit params
            /\ key = index params "lastEvaluatedKey"
        | _ => False
        end)
  /\ (params !! "email" = Some "" ->
        after = (calls (userRepo h)
                   ++ [CallFetchUsers (page_limit params)
                         (index params "lastEvaluatedKey")])%list).
Proof.
  intros Hm params after. subst after. rewrite (handler_GET h req Hm).
  destruct (params !! "email") as [email | ] eqn:Hp.
  - destruct (decide (email = "")) as [-> | Hne].
    + rewrite (GetUser_page h req (index_Some _ _ _ Hp)).
      cbn [repository.FetchUsers implements log fst snd userRepo calls inner].
      split; [ | reflexivity]. eexists. split; [reflexivity | ].
      cbn iota. repeat split; auto.
    + rewrite (GetUser_by_email h req email (index_Some _ _ _ Hp) Hne).
      cbn [repository.FetchUser implements log fst snd userRepo calls inner].
      split; [ | intros Heq; congruence]. eexists. split; [reflexivity | ].
      cbn iota. split; [reflexivity | exact Hne].
  - rewrite (GetUser_page h req (index_None _ _ Hp)).
    cbn [repository.FetchUsers implements log fst snd userRepo calls inner].
    split; [ | discriminate]. eexists. split; [reflexivity | ].
    cbn iota. repeat split; auto.
Qed.

End ReadClaims.

(** ** Writing: update and delete *)

Section WriteFacts.
Import events handlers handlers.UserHandler.
Context {R : Type} `{repository.UserRepository R} `{Decoder}.

(** [UpdateUser] of the handler, for a request that reaches the repository. *)
Lemma UpdateUser_reaches (h : t R) (req : APIGatewayProxyRequest) (user : User) :
  UnmarshalUser (ReqBody req) = (user, None) ->
  validators.ValidateUser user = None ->
  UpdateUser h req =
    (match fst (repository.UpdateUser (userRepo h) user) with
     | (_, Some e) =>
         if String.eqb e repository.ErrorUserDoesNotExist
         then apiResponse http.StatusNotFound
                (OfErrorBody (mkErrorBody (StringPtr "User not found for update")))
         else apiResponse http.StatusBadRequest
                (OfErrorBody (mkErrorBody (StringPtr e)))
     | (updatedUser, None) => apiResponse http.StatusOK (OfUser updatedUser)
     end, mk (snd (repository.UpdateUser (userRepo h) user))).
Proof.
  intros Hbody Hvalid. unfold UpdateUser. rewrite Hbody.
  assert (Hmail : String.eqb (Email user) "" = false).
  { destruct (String.eqb_spec (Email user) "") as [He | He]; [ | reflexivity].
    unfold validators.ValidateUser in Hvalid. rewrite He in Hvalid. discriminate. }
  rewrite Hmail, Hvalid.
  destruct (repository.UpdateUser (userRepo h) user) as [[u [e | ]] repo];
    cbn [fst snd]; [ | reflexivity].
  destruct (String.eqb e repository.ErrorUserDoesNotExist); reflexivity.
Qed.

(** [DeleteUser] of the handler, for a request that reaches the repository. *)
Lemma DeleteUser_reaches (h : t R) (req : APIGatewayProxyRequest) (email : string) :
  QueryStringParameters req !! "email" = Some email ->
  email <> "" ->
  DeleteUser h req =
    (match repository.DeleteUser (userRepo h) email with
     | (Some e, _) =>
         if String.eqb e repository.ErrorUserDoesNotExist
         then apiResponse http.StatusNotFound
                (OfErrorBody (mkErrorBody (StringPtr "User not found for deletion")))
         else apiResponse http.StatusBadRequest
                (OfErrorBody (mkErrorBody (StringPtr e)))
     | (None, _) => apiResponse http.StatusNoContent Nil
     end, mk (snd (repository.DeleteUser (userRepo h) email))).
Proof.
  intros Hp Hne. unfold DeleteUser. rewrite (index_Some _ _ _ Hp).
  apply String.eqb_neq in Hne. rewrite Hne.
  destruct (repository.DeleteUser (userRepo h) email) as [[e | ] repo];
    cbn [fst snd]; [ | reflexivity].
  destruct (String.eqb e repository.ErrorUserDoesNotExist); reflexivity.
Qed.

Lemma status_of_error (e : error) (msg : string) :
  StatusCode (fst (if String.eqb e repository.ErrorUserDoesNotExist
                   then apiResponse http.StatusNotFound
                          (OfErrorBody (mkErrorBody (StringPtr msg)))
                   else apiResponse http.StatusBadRequest
                          (OfErrorBody (mkErrorBody (StringPtr e)))))
  = if decide (e = repository.ErrorUserDoesNotExist) then 404%Z else 400%Z.
Proof.
  destruct (String.eqb_spec e repository.ErrorUserDoesNotExist) as [He | He];
    destruct (decide (e = repository.ErrorUserDoesNotExist)); try contradiction;
    reflexivity.
Qed.

End WriteFacts.

(** C3. In the repository, for an email under which the table has no item,
    [UpdateUser] and [DeleteUser] leave the table as it was and, when the
    store answers the lookup, fail with [ErrorUserDoesNotExist]; and they
    report that error for no other failure.  In the handler, over any
    repository, a failure of the repository's update (for a PUT request) or
    delete (for a DELETE request) is answered with 404 when its message is
    [ErrorUserDoesNotExist] and with 400 otherwise. *)
Theorem C3_NotFound_is_404 :
  (forall (repo : repository.DynamoDBUserRepository.t) (r : User),
      dynamodb.lookup (Email r) (table repo) = None ->
      table (snd (repository.DynamoDBUserRepository.UpdateUser repo r)) = table repo
      /\ fst (fst (repository.DynamoDBUserRepository.UpdateUser repo r)) = None
      /\ (answers repo ->
            snd (fst (repository.DynamoDBUserRepository.UpdateUser repo r))
            = Some repository.ErrorUserDoesNotExist)) /\
  (forall (repo : repository.DynamoDBUserRepository.t) (email : string),
      dynamodb.lookup email (table repo) = None ->
      table (snd (repository.DynamoDBUserRepository.DeleteUser repo email)) = table repo
      /\ (answers repo ->
            fst (repository.DynamoDBUserRepository.DeleteUser repo email)
            = Some repository.ErrorUserDoesNotExist)) /\
  (forall (repo : repository.DynamoDBUserRepository.t) (r : User),
      snd (fst (repository.DynamoDBUserRepository.UpdateUser repo r))
      = Some repository.ErrorUserDoesNotExist ->
      answers repo /\ dynamodb.lookup (Email r) (table repo) = None) /\
  (forall (repo : repository.DynamoDBUserRepository.t) (email : string),
      fst (repository.DynamoDBUserRepository.DeleteUser repo email)
      = Some repository.ErrorUserDoesNotExist ->
      answers repo /\ dynamodb.lookup email (table repo) = None) /\
  (forall (R : Type) (Repo : repository.UserRepository R) (Dec : Decoder)
          (h : handlers.UserHandler.t R) (req : events.APIGatewayProxyRequest)
          (user : User) (e : error),
      events.HTTPMethod req = "PUT" ->
      UnmarshalUser (events.ReqBody req) = (user, None) ->
      validators.ValidateUser user = None ->
      snd (fst (repository.UpdateUser (handlers.UserHandler.userRepo h) user)) = Some e ->
      events.StatusCode (fst (fst (main.handler h req)))
      = if decide (e = repository.ErrorUserDoesNotExist) then 404%Z else 400%Z) /\
  (forall (R : Type) (Repo : repository.UserRepository R) (Dec : Decoder)
          (h : handlers.UserHandler.t R) (req : events.APIGatewayProxyRequest)
          (email : string) (e : error),
      events.HTTPMethod req = "DELETE" ->
      events.QueryStringParameters req !! "email" = Some email ->
      email <> "" ->
      fst (repository.DeleteUser (handlers.UserHandler.userRepo h) email) = Some e ->
      events.StatusCode (fst (fst (main.handler h req)))
      = if decide (e = repository.ErrorUserDoesNotExist) then 404%Z else 400%Z).
Proof.
  repeat apply conj.
  - intros repo r Hl. destruct (UpdateUser_absent repo r Hl) as (Hu & Ht & Ha & _).
    auto.
  - intros repo email Hl. destruct (DeleteUser_absent repo email Hl) as (Ht & Ha & _).
    auto.
  - apply UpdateUser_NotFound_only.
  - apply DeleteUser_NotFound_only.
  - intros R Repo Dec h req user e Hm Hbody Hvalid Herr.
    rewrite (handler_PUT h req Hm), (UpdateUser_reaches h req user Hbody Hvalid).
    destruct (repository.UpdateUser (handlers.UserHandler.userRepo h) user)
      as [[u err] repo]. cbn [fst snd] in *. subst err.
    apply status_of_error.
  - intros R Repo Dec h req email e Hm Hp Hne Herr.
    rewrite (handler_DELETE h req Hm), (DeleteUser_reaches h req email Hp Hne).
    destruct (repository.DeleteUser (handlers.UserHandler.userRepo h) email)
      as [err repo]. cbn [fst snd] in *. subst err.
    apply status_of_error.
Qed.

(** ** The body of a response without content *)

(** C8. What the code does where the specification asks for an empty body:
    [apiResponse] marshals the nil body like any other, and the JSON text of
    nil is [null]; so the response to a successful DELETE has status 204 and
    the four bytes [null] as its body, over any repository, and over the
    table when the record exists and the store answers both calls, the record
    being removed. *)
Theorem C8_nil_body_is_null :
  (forall status : Z,
      handlers.apiResponse status handlers.Nil
      = (events.mkResponse status json_headers "null", None)) /\
  (forall (R : Type) (Repo : repository.UserRepository R) (Dec : Decoder)
          (h : handlers.UserHandler.t R) (req : events.APIGatewayProxyRequest)
          (email : string),
      events.HTTPMethod req = "DELETE" ->
      events.QueryStringParameters req !! "email" = Some email ->
      email <> "" ->
      fst (repository.DeleteUser (handlers.UserHandler.userRepo h) email) = None ->
      fst (main.handler h req)
      = (events.mkResponse 204 json_headers "null", None)) /\
  (forall (Dec : Decoder) (repo : repository.DynamoDBUserRepository.t)
          (stored : User) (email : string),
      email <> "" ->
      dynamodb.lookup email (table repo) = Some (dynamodb.ItemUser stored) ->
      answers repo -> answers (served repo) ->
      let out := main.handler (handlers.UserHandler.New repo)
                   (delete_request {[ "email" := email ]}) in
      fst out = (events.mkResponse 204 json_headers "null", None)
      /\ dynamodb.lookup email (table (handlers.UserHandler.userRepo (snd out))) = None).
Proof.
  repeat apply conj.
  - reflexivity.
  - intros R Repo Dec h req email Hm Hp Hne Hok.
    rewrite (handler_DELETE h req Hm), (DeleteUser_reaches h req email Hp Hne).
    destruct (repository.DeleteUser (handlers.UserHandler.userRepo h) email)
      as [err repo]. cbn [fst snd] in *. subst err. reflexivity.
  - intros Dec repo stored email Hne Hl Ha Ha' out. subst out.
    rewrite (handler_DELETE (handlers.UserHandler.New repo)
               (delete_request {[ "email" := email ]}) eq_refl).
    rewrite (DeleteUser_reaches _ _ email (lookup_singleton_eq _ _) Hne).
    cbn [handlers.UserHandler.New handlers.UserHandler.userRepo
         repository.DeleteUser repository.DynamoDBUserRepository.implements].
    rewrite DeleteUser_eq, Hl. unfold answers in Ha, Ha'. rewrite Ha, Ha'.
    cbn [fst snd handlers.UserHandler.userRepo]. split; [reflexivity | ].
    apply lookup_remove.
Qed.

(** ** The theorems at the sample data *)

#[local] Existing Instance sample_decoder.

Lemma unique_alice : unique_emails (table alice_repo).
Proof.
  intros [ | i] [ | j] a b Ha Hb Hk; try reflexivity; discriminate.
Defined.

Lemma C5_witness :
  unique_emails (table (run alice_repo (take 3 sample_ops))).
Proof.
  apply (proj1 (C5_unique_emails_invariant alice_repo sample_ops 3 unique_alice)).
Defined.

Lemma C6_witness :
  let h := handlers.UserHandler.New (recording.mk empty_repo []) in
  let out := main.handler h (get_request {[ "email" := "missing@x.com" ]}) in
  recording.calls (handlers.UserHandler.userRepo (snd out))
  = [recording.CallFetchUser "missing@x.com"]
  /\ events.StatusCode (fst (fst out)) = 404%Z
  /\ events.Body (fst (fst out))
     = "{" ++ quoted "error" ++ ":" ++ quoted "User not found" ++ "}".
Proof.
  intros h out.
  pose proof (C6_GetUser_by_email h (get_request {[ "email" := "missing@x.com" ]})
                "missing@x.com" eq_refl eq_refl ltac:(discriminate))
    as (Hcalls & _ & _ & _ & Hresp).
  split; [exact Hcalls | exact Hresp].
Defined.

(** C6, as stated, fails for a request whose [email] parameter is present
    with the empty value: over an empty table, where [FetchUser] would find
    no record, the handler calls [FetchUsers] and answers 200 with a page, not
    404. *)
Lemma C6_counterexample :
  let req := get_request {[ "email" := "" ]} in
  let h := handlers.UserHandler.New (recording.mk empty_repo []) in
  let out := main.handler h req in
  events.HTTPMethod req = "GET"
  /\ is_Some (events.QueryStringParameters req !! "email")
  /\ fst (repository.FetchUser empty_repo "") = (None, None)
  /\ recording.calls (handlers.UserHandler.userRepo (snd out))
     = [recording.CallFetchUsers 10 ""]
  /\ events.StatusCode (fst (fst out)) = 200%Z
  /\ events.StatusCode (fst (fst out)) <> 404%Z.
Proof.
  cbv zeta. split; [reflexivity | ]. split; [eexists; reflexivity | ].
  split; [reflexivity | ]. split; [vm_compute; reflexivity | ].
  split; [vm_compute; reflexivity | vm_compute; discriminate].
Qed.

Lemma C7_witness :
  let h := handlers.UserHandler.New (recording.mk alice_repo []) in
  let out := main.handler h (get_request {[ "limit" := "-3" ]}) in
  recording.calls (handlers.UserHandler.userRepo (snd out))
  = [recording.CallFetchUsers 10 ""]
  /\ events.StatusCode (fst (fst out)) = 200%Z.
Proof.
  intros h out.
  pose proof (C7_GetUser_page h (get_request {[ "limit" := "-3" ]}) eq_refl eq_refl)
    as (Hcalls & _ & _ & Hresp).
  split; [exact Hcalls | exact (proj1 Hresp)].
Defined.

Lemma C10_witness :
  let h := handlers.UserHandler.New (recording.mk alice_repo []) in
  let out := main.handler h (get_request {[ "email" := "" ]}) in
  recording.calls (handlers.UserHandler.userRepo (snd out))
  = [recording.CallFetchUsers 10 ""].
Proof.
  intros h out.
  exact (proj2 (C10_empty_email_is_paged h (get_request {[ "email" := "" ]}) eq_refl)
           eq_refl).
Defined.

Lemma C3_witness :
  snd (fst (repository.DynamoDBUserRepository.UpdateUser empty_repo alice))
  = Some repository.ErrorUserDoesNotExist
  /\ fst (repository.DynamoDBUserRepository.DeleteUser empty_repo "a@b.com")
     = Some repository.ErrorUserDoesNotExist
  /\ events.StatusCode
       (fst (fst (main.handler (handlers.UserHandler.New empty_repo)
                    (put_request alice_json))))
     = 404%Z
  /\ events.StatusCode
       (fst (fst (main.handler (handlers.UserHandler.New empty_repo)
                    (delete_request {[ "email" := "a@b.com" ]}))))
     = 404%Z.
Proof.
  destruct C3_NotFound_is_404 as (Hupd & Hdel & _ & _ & Hput & Hdelete).
  split; [ | split; [ | split]].
  - apply (Hupd empty_repo alice eq_refl). reflexivity.
  - apply (Hdel empty_repo "a@b.com" eq_refl). reflexivity.
  - apply (Hput _ _ sample_decoder (handlers.UserHandler.New empty_repo)
             (put_request alice_json) alice repository.ErrorUserDoesNotExist);
      reflexivity.
  - apply (Hdelete _ _ sample_decoder (handlers.UserHandler.New empty_repo)
             (delete_request {[ "email" := "a@b.com" ]}) "a@b.com"
             repository.ErrorUserDoesNotExist);
      [reflexivity | reflexivity | discriminate | reflexivity].
Defined.

Lemma C8_witness :
  let out := main.handler (handlers.UserHandler.New alice_repo)
               (delete_request {[ "email" := "a@b.com" ]}) in
  events.StatusCode (fst (fst out)) = 204%Z
  /\ events.Body (fst (fst out)) = "null"
  /\ events.Body (fst (fst out)) <> "".
Proof.
  intros out.
  destruct (proj2 (proj2 C8_nil_body_is_null) sample_decoder alice_repo alice "a@b.com"
              ltac:(discriminate) eq_refl eq_refl eq_refl) as [Hresp _].
  fold out in Hresp. rewrite Hresp. repeat split. discriminate.
Defined.

(* ------------------------------------------------------------------ *)
(** * Further properties of the code *)

(** ** The repository: round trips, frame, failures *)

Section RepositoryProperties.
Import dynamodb dynamodbattribute repository repository.DynamoDBUserRepository.

Lemma lookup_put_ne k it l : k <> key it -> lookup k (put it l) = lookup k l.
Proof.
  intros Hne. unfold lookup. induction l as [ | x l IH]; simpl.
  - destruct (String.eqb_spec (key it) k); [congruence | reflexivity].
  - destruct (String.eqb_spec (key x) (key it)) as [Hk | Hk]; simpl.
    + destruct (String.eqb_spec (key it) k); [congruence | ].
      destruct (String.eqb_spec (key x) k); [congruence | reflexivity].
    + destruct (String.eqb (key x) k); [reflexivity | exact IH].
Qed.

Lemma lookup_remove_ne k k' l : k' <> k -> lookup k' (remove k l) = lookup k' l.
Proof.
  intros Hne. unfold lookup, remove. induction l as [ | x l IH]; simpl;
    [reflexivity | ].
  destruct (String.eqb_spec (key x) k) as [Hk | Hk]; simpl.
  - destruct (String.eqb_spec (key x) k'); [congruence | exact IH].
  - destruct (String.eqb (key x) k'); [reflexivity | exact IH].
Qed.

Lemma put_absent it l : lookup (key it) l = None -> put it l = (l ++ [it])%list.
Proof.
  unfold lookup. induction l as [ | x l IH]; simpl; [reflexivity | ].
  destruct (String.eqb (key x) (key it)); [discriminate | ].
  intros Hl. rewrite (IH Hl). reflexivity.
Qed.

Lemma length_put_present it l x :
  lookup (key it) l = Some x -> length (put it l) = length l.
Proof.
  unfold lookup. induction l as [ | y l IH]; simpl; [discriminate | ].
  destruct (String.eqb (key y) (key it)); [reflexivity | ].
  intros Hl. simpl. rewrite (IH Hl). reflexivity.
Qed.

Lemma put_user_answered repo user :
  answers repo ->
  fst (put_user repo user) = (Some user, None)
  /\ table (snd (put_user repo user)) = put (ItemUser user) (table repo).
Proof. unfold answers, put_user. intros ->. split; reflexivity. Qed.

(** X1. Creating a record under an email the table does not hold, the store
    answering the lookup and the put, returns the record and adds it at the
    end of the table, the items already there staying as they are; a fetch
    of that email, answered by the store, then returns the record as it was
    given. *)
Theorem X1_create_then_fetch (repo : t) (r : User) :
  lookup (Email r) (table repo) = None ->
  answers repo -> answers (served repo) ->
  fst (CreateUser repo r) = (Some r, None)
  /\ table (snd (CreateUser repo r)) = (table repo ++ [ItemUser r])%list
  /\ (answers (snd (CreateUser repo r)) ->
        fst (FetchUser (snd (CreateUser repo r)) (Email r)) = (Some r, None)).
Proof.
  intros Hl Ha Ha'. rewrite CreateUser_eq, Hl. unfold answers in Ha. rewrite Ha.
  destruct (put_user_answered (served repo) r Ha') as [Hres Ht].
  rewrite table_served in Ht.
  split; [exact Hres | ]. split.
  - rewrite Ht. apply (put_absent (ItemUser r)). exact Hl.
  - intros Ha2. rewrite FetchUser_eq. unfold answers in Ha2. rewrite Ha2, Ht.
    rewrite (lookup_put_eq (ItemUser r)). reflexivity.
Qed.

Lemma X1_witness :
  fst (CreateUser empty_repo alice) = (Some alice, None)
  /\ table (snd (CreateUser empty_repo alice)) = [ItemUser alice]
  /\ fst (FetchUser (snd (CreateUser empty_repo alice)) "a@b.com") = (Some alice, None).
Proof.
  destruct (X1_create_then_fetch empty_repo alice eq_refl eq_refl eq_refl)
    as (Hres & Ht & Hfetch).
  split; [exact Hres | ]. split; [exact Ht | ]. apply Hfetch. reflexivity.
Defined.

(** X2. Updating a record the table holds, the store answering the lookup
    and the put, returns the new record and puts it in the place of the old
    one: the table keeps its length, and a fetch of the email, answered by
    the store, returns the new record whole, nothing of the old one. *)
Theorem X2_update_replaces (repo : t) (r old : User) :
  lookup (Email r) (table repo) = Some (ItemUser old) ->
  answers repo -> answers (served repo) ->
  fst (UpdateUser repo r) = (Some r, None)
  /\ table (snd (UpdateUser repo r)) = put (ItemUser r) (table repo)
  /\ length (table (snd (UpdateUser repo r))) = length (table repo)
  /\ (answers (snd (UpdateUser repo r)) ->
        fst (FetchUser (snd (UpdateUser repo r)) (Email r)) = (Some r, None)).
Proof.
  intros Hl Ha Ha'. rewrite UpdateUser_eq, Hl. unfold answers in Ha. rewrite Ha.
  destruct (put_user_answered (served repo) r Ha') as [Hres Ht].
  rewrite table_served in Ht.
  split; [exact Hres | ]. split; [exact Ht | ]. split.
  - rewrite Ht. apply (length_put_present (ItemUser r) _ _ Hl).
  - intros Ha2. rewrite FetchUser_eq. unfold answers in Ha2. rewrite Ha2, Ht.
    rewrite (lookup_put_eq (ItemUser r)). reflexivity.
Qed.

Lemma X2_witness :
  fst (UpdateUser alice_repo alice2) = (Some alice2, None)
  /\ table (snd (UpdateUser alice_repo alice2)) = [ItemUser alice2]
  /\ fst (FetchUser (snd (UpdateUser alice_repo alice2)) "a@b.com")
     = (Some alice2, None).
Proof.
  destruct (X2_update_replaces alice_repo alice2 alice eq_refl eq_refl eq_refl)
    as (Hres & Ht & _ & Hfetch).
  split; [exact Hres | ]. split; [exact Ht | ]. apply Hfetch. reflexivity.
Defined.

(** X3. Deleting a record the table holds, the store answering the lookup
    and the delete, returns no error and removes every item under the email;
    a fetch of the email, answered by the store, then finds no record and
    reports no error. *)
Theorem X3_delete_then_fetch (repo : t) (email : string) (old : User) :
  lookup email (table repo) = Some (ItemUser old) ->
  answers repo -> answers (served repo) ->
  fst (DeleteUser repo email) = None
  /\ table (snd (DeleteUser repo email)) = remove email (table repo)
  /\ (answers (snd (DeleteUser repo email)) ->
        fst (FetchUser (snd (DeleteUser repo email)) email) = (None, None)).
Proof.
  intros Hl Ha Ha'. rewrite DeleteUser_eq, Hl.
  unfold answers in Ha, Ha'. rewrite Ha, Ha'. cbn [fst snd].
  split; [reflexivity | ]. split; [reflexivity | ].
  intros Ha2. rewrite FetchUser_eq. unfold answers in Ha2. rewrite Ha2.
  unfold table at 1. cbn [client items]. rewrite lookup_remove. reflexivity.
Qed.

Lemma X3_witness :
  fst (DeleteUser alice_repo "a@b.com") = None
  /\ table (snd (DeleteUser alice_repo "a@b.com")) = []
  /\ fst (FetchUser (snd (DeleteUser alice_repo "a@b.com")) "a@b.com") = (None, None).
Proof.
  destruct (X3_delete_then_fetch alice_repo "a@b.com" alice eq_refl eq_refl eq_refl)
    as (Hres & Ht & Hfetch).
  split; [exact Hres | ]. split; [exact Ht | ]. apply Hfetch. reflexivity.
Defined.

(** What a write leaves in the table. *)
Lemma CreateUser_table repo r :
  (snd (fst (CreateUser repo r)) <> None /\ table (snd (CreateUser repo r)) = table repo)
  \/ (fst (CreateUser repo r) = (Some r, None)
      /\ table (snd (CreateUser repo r)) = put (ItemUser r) (table repo)).
Proof.
  rewrite CreateUser_eq.
  destruct (fst (call (client repo))) as [e | ];
    [left; cbn [fst snd]; rewrite table_served; split; [discriminate | reflexivity] | ].
  destruct (lookup (Email r) (table repo)) as [[u | k why] | ];
    try (left; cbn [fst snd]; rewrite table_served; split; [discriminate | reflexivity]).
  destruct (put_user (served repo) r) as [res repo1] eqn:Hput.
  apply put_user_table in Hput as [(He & Hu & Ht) | (He & _ & Ht)];
    cbn [fst snd]; rewrite Ht, table_served; [right | left; auto].
  destruct res as [u e]. cbn [fst snd] in *. subst. auto.
Qed.

Lemma UpdateUser_table repo r :
  (snd (fst (UpdateUser repo r)) <> None /\ table (snd (UpdateUser repo r)) = table repo)
  \/ (fst (UpdateUser repo r) = (Some r, None)
      /\ table (snd (UpdateUser repo r)) = put (ItemUser r) (table repo)).
Proof.
  rewrite UpdateUser_eq.
  destruct (fst (call (client repo))) as [e | ];
    [left; cbn [fst snd]; rewrite table_served; split; [discriminate | reflexivity] | ].
  destruct (lookup (Email r) (table repo)) as [[u | k why] | ];
    try (left; cbn [fst snd]; rewrite table_served; split; [discriminate | reflexivity]).
  destruct (put_user (served repo) r) as [res repo1] eqn:Hput.
  apply put_user_table in Hput as [(He & Hu & Ht) | (He & _ & Ht)];
    cbn [fst snd]; rewrite Ht, table_served; [right | left; auto].
  destruct res as [u' e]. cbn [fst snd] in *. subst. auto.
Qed.

Lemma DeleteUser_table repo email :
  (fst (DeleteUser repo email) <> None
   /\ table (snd (DeleteUser repo email)) = table repo)
  \/ (fst (DeleteUser repo email) = None
      /\ table (snd (DeleteUser repo email)) = remove email (table repo)).
Proof.
  rewrite DeleteUser_eq.
  destruct (fst (call (client repo))) as [e | ];
    [left; cbn [fst snd]; rewrite table_served; split; [discriminate | reflexivity] | ].
  destruct (lookup email (table repo)) as [[u | k why] | ];
    try (left; cbn [fst snd]; rewrite table_served; split; [discriminate | reflexivity]).
  destruct (fst (call (client (served repo)))) as [e | ]; cbn [fst snd].
  - left. rewrite !table_served. split; [discriminate | reflexivity].
  - right. split; reflexivity.
Qed.

(** X4. A create, an update or a delete, whatever its outcome and whatever
    the transport does, leaves what the table holds under every other email
    as it was. *)
Theorem X4_other_emails_untouched (repo : t) (r : User) (email k : string) :
  (k <> Email r ->
     lookup k (table (snd (CreateUser repo r))) = lookup k (table repo)
     /\ lookup k (table (snd (UpdateUser repo r))) = lookup k (table repo))
  /\ (k <> email ->
        lookup k (table (snd (DeleteUser repo email))) = lookup k (table repo)).
Proof.
  split.
  - intros Hne. split.
    + destruct (CreateUser_table repo r) as [[_ ->] | [_ ->]]; [reflexivity | ].
      apply lookup_put_ne. exact Hne.
    + destruct (UpdateUser_table repo r) as [[_ ->] | [_ ->]]; [reflexivity | ].
      apply lookup_put_ne. exact Hne.
  - intros Hne.
    destruct (DeleteUser_table repo email) as [[_ ->] | [_ ->]]; [reflexivity | ].
    apply lookup_remove_ne. exact Hne.
Qed.

Lemma X4_witness :
  lookup "a@b.com" (table (snd (CreateUser alice_repo (mkUser "c@d.org" "C" "D"))))
  = Some (ItemUser alice)
  /\ lookup "a@b.com" (table (snd (DeleteUser alice_repo "c@d.org")))
     = Some (ItemUser alice).
Proof.
  destruct (X4_other_emails_untouched alice_repo (mkUser "c@d.org" "C" "D")
              "c@d.org" "a@b.com") as [Hput Hdel].
  split.
  - exact (proj1 (Hput ltac:(discriminate))).
  - exact (Hdel ltac:(discriminate)).
Defined.


End RepositoryProperties.


Section PageProperties.
Import dynamodb dynamodbattribute repository repository.DynamoDBUserRepository.
Context `{Decoder}.

(** X6. [FetchUsers] is read-only, and it reads the pagination token before
    it calls the store: a token that is not empty and does not decode gives
    [ErrorInvalidLastEvaluatedKey] without any call to the store, the
    repository being handed back as it was; with an empty token, or one that
    decodes, a transport failure of the scan is reported under the tag
    [ErrorCouldNotScanItems]. *)
Theorem X6_FetchUsers_token_and_failures (repo : t) (limit : Z) (key : string) :
  (key <> "" -> snd (UnmarshalKey key) <> None ->
     FetchUsers repo limit key
     = (((None, ""), Some ErrorInvalidLastEvaluatedKey), repo))
  /\ (key = "" \/ snd (UnmarshalKey key) = None ->
        forall e, fails_with repo e ->
          FetchUsers repo limit key
          = (((None, ""), Errorf ErrorCouldNotScanItems e), served repo))
  /\ table (snd (FetchUsers repo limit key)) = table repo.
Proof.
  split; [ | split].
  - intros Hne Herr. unfold FetchUsers.
    apply String.eqb_neq in Hne. rewrite Hne.
    destruct (UnmarshalKey key) as [k [e | ]]; [reflexivity | ].
    cbn [snd] in Herr. congruence.
  - intros Hkey e Hf. unfold FetchUsers.
    assert (Hstart : exists k, (if String.eqb key "" then (KeyNil, None)
                                else UnmarshalKey key) = (k, None)).
    { destruct Hkey as [-> | Hok]; [exists KeyNil; reflexivity | ].
      destruct (String.eqb key ""); [exists KeyNil; reflexivity | ].
      destruct (UnmarshalKey key) as [k err]. cbn [snd] in Hok. subst.
      exists k. reflexivity. }
    destruct Hstart as [k ->].
    unfold Scan, served. unfold fails_with in Hf.
    destruct (call (client repo)) as [f c]. cbn [fst snd] in *. subst f.
    reflexivity.
  - apply FetchUsers_table.
Qed.

End PageProperties.

Lemma X6_witness :
  repository.DynamoDBUserRepository.FetchUsers (H := rejecting_decoder)
    flaky_repo 10 "not json"
  = (((None, ""), Some repository.ErrorInvalidLastEvaluatedKey), flaky_repo).
Proof.
  apply (proj1 (X6_FetchUsers_token_and_failures (H := rejecting_decoder)
                  flaky_repo 10 "not json")); discriminate.
Defined.

(** ** The shape of a valid email *)

Section EmailShape.
Import regexp validators.

Lemma Matches_Class_inv p s : Matches (Class p) s -> exists c, s = [c] /\ p c = true.
Proof. intros Hm. inversion Hm; subst. eauto. Qed.

Lemma Matches_Cat_inv r1 r2 s :
  Matches (Cat r1 r2) s ->
  exists s1 s2, s = (s1 ++ s2)%list /\ Matches r1 s1 /\ Matches r2 s2.
Proof. intros Hm. inversion Hm; subst. eauto. Qed.

Lemma alnum_domain c : alnum c = true -> domain_char c.
Proof. intros Ha. left. unfold alnum_hyphen. rewrite Ha. reflexivity. Qed.

Lemma label_domain : classes_within domain_char label.
Proof.
  unfold label, Opt. cbn [classes_within].
  refine (conj alnum_domain (conj (conj _ alnum_domain) I)).
  apply classes_within_UpTo. intros c Hc. left. exact Hc.
Qed.

Lemma dot_domain c : Ascii.eqb "." c = true -> domain_char c.
Proof. intros Hc. apply Ascii.eqb_eq in Hc. right. symmetry. exact Hc. Qed.

(** A label starts and ends with a letter or a digit. *)
Lemma label_ends s :
  Matches label s ->
  (exists c s', s = c :: s' /\ alnum c = true)
  /\ (exists s' c, s = (s' ++ [c])%list /\ alnum c = true).
Proof.
  unfold label. intros Hm.
  apply Matches_Cat_inv in Hm as (s1 & s2 & -> & H1 & H2).
  apply Matches_Class_inv in H1 as (c1 & -> & Hc1).
  split; [exists c1, s2; auto | ].
  unfold Opt in H2. inversion H2 as [ | | | ? ? ? Hl | ? ? ? Hr | | ]; subst.
  - apply Matches_Cat_inv in Hl as (s3 & s4 & -> & _ & H4).
    apply Matches_Class_inv in H4 as (c & -> & Hc).
    exists ([c1] ++ s3)%list, c. rewrite <- app_assoc. auto.
  - inversion Hr; subst. exists [], c1. auto.
Qed.

Lemma labels_end r s :
  Matches r s -> r = Star (Cat (Lit ".") label) ->
  s = [] \/ exists s' c, s = (s' ++ [c])%list /\ alnum c = true.
Proof.
  induction 1 as [ | | | | | | r0 s1 s2 H1 _ H2 IH2]; intros Hr; try discriminate;
    [left; reflexivity | ].
  injection Hr as ->. right.
  destruct (IH2 eq_refl) as [-> | (s' & c & -> & Hc)].
  - apply Matches_Cat_inv in H1 as (s3 & s4 & -> & _ & H4).
    apply label_ends in H4 as [_ (s' & c & -> & Hc)].
    exists (s3 ++ s')%list, c. rewrite app_nil_r, <- app_assoc. auto.
  - exists (s1 ++ s')%list, c. rewrite <- app_assoc. auto.
Qed.

Lemma rxEmail_shape s :
  Matches rxEmail s ->
  exists l c d c',
    s = (l ++ "@"%char :: d)%list
    /\ l <> []
    /\ Forall (fun x => local_char x = true) l
    /\ Forall domain_char d
    /\ (exists d', d = c :: d') /\ alnum c = true
    /\ (exists d', d = (d' ++ [c'])%list) /\ alnum c' = true.
Proof.
  unfold rxEmail. intros Hm.
  apply Matches_Cat_inv in Hm as (l & s2 & -> & Hl & H2).
  apply Matches_Cat_inv in H2 as (s3 & d & -> & Hat & Hd).
  unfold Lit in Hat. apply Matches_Class_inv in Hat as (a & -> & Ha).
  apply Ascii.eqb_eq in Ha. subst a.
  assert (Hlocal : Forall (fun x => local_char x = true) l).
  { apply (Matches_classes_within _ _ _ Hl). unfold Plus. cbn [classes_within].
    split; intros c Hc; exact Hc. }
  assert (Hne : l <> []).
  { unfold Plus in Hl. apply Matches_Cat_inv in Hl as (s1 & s1' & -> & H1 & _).
    apply Matches_Class_inv in H1 as (c & -> & _). discriminate. }
  assert (Hdom : Forall domain_char d).
  { apply (Matches_classes_within _ _ _ Hd). unfold Lit. cbn [classes_within].
    exact (conj label_domain (conj dot_domain label_domain)). }
  apply Matches_Cat_inv in Hd as (s4 & s5 & -> & H4 & H5).
  destruct (label_ends _ H4) as [(c & s4' & -> & Hc) (s4'' & c4 & Hs4 & Hc4)].
  destruct (labels_end _ _ H5 eq_refl) as [-> | (s5' & c5 & -> & Hc5)].
  - exists l, c, ((c :: s4') ++ [])%list, c4. repeat split; auto.
    + eexists; reflexivity.
    + exists s4''. rewrite app_nil_r. exact Hs4.
  - exists l, c, ((c :: s4') ++ s5' ++ [c5])%list, c5. repeat split; auto.
    + eexists; reflexivity.
    + exists ((c :: s4') ++ s5')%list. rewrite <- app_assoc. reflexivity.
Qed.

(** X7. An email that [IsEmailValid] accepts has exactly one [@]: it is a
    local part that is not empty, made of the bytes of the local class, then
    [@], then a domain made of letters, digits, hyphens and dots that starts
    and ends with a letter or a digit; neither part holds an [@] or a
    space. *)
Theorem X7_valid_email_shape (email : string) :
  IsEmailValid email = true ->
  exists l c d c',
    list_ascii_of_string email = (l ++ "@"%char :: d)%list
    /\ l <> []
    /\ Forall (fun x => local_char x = true) l
    /\ Forall domain_char d
    /\ (exists d', d = c :: d') /\ alnum c = true
    /\ (exists d', d = (d' ++ [c'])%list) /\ alnum c' = true
    /\ ("@"%char ∉ l) /\ ("@"%char ∉ d)
    /\ (" "%char ∉ list_ascii_of_string email).
Proof.
  intros Hv. apply IsEmailValid_spec in Hv as [_ Hm].
  destruct (rxEmail_shape _ Hm) as (l & c & d & c' & Hs & Hne & Hl & Hd & Hc & Hac & Hc' & Hac').
  exists l, c, d, c'. rewrite Hs.
  assert (Hno : forall x : ascii, local_char x = false ->
                 ~ domain_char x -> x <> "@"%char -> x ∉ (l ++ "@"%char :: d)%list).
  { intros x Hxl Hxd Hxa Hin. apply elem_of_app in Hin as [Hin | Hin].
    - rewrite Forall_forall in Hl. specialize (Hl x Hin). congruence.
    - apply elem_of_cons in Hin as [Heq | Hin]; [contradiction | ].
      rewrite Forall_forall in Hd. exact (Hxd (Hd x Hin)). }
  repeat split; auto.
  - intros Hin. rewrite Forall_forall in Hl. specialize (Hl _ Hin). discriminate.
  - intros Hin. rewrite Forall_forall in Hd. destruct (Hd _ Hin); discriminate.
  - apply Hno; [reflexivity | | discriminate].
    intros [Hx | Hx]; discriminate.
Qed.

End EmailShape.

Lemma X7_witness :
  exists l c d c',
    list_ascii_of_string "a@b.com" = (l ++ "@"%char :: d)%list
    /\ l <> []
    /\ Forall (fun x => validators.local_char x = true) l
    /\ Forall domain_char d
    /\ (exists d', d = c :: d') /\ validators.alnum c = true
    /\ (exists d', d = (d' ++ [c'])%list) /\ validators.alnum c' = true
    /\ ("@"%char ∉ l) /\ ("@"%char ∉ d)
    /\ (" "%char ∉ list_ascii_of_string "a@b.com").
Proof. apply (X7_valid_email_shape "a@b.com"). vm_compute. reflexivity. Defined.

(** ** The handlers: what reaches the repository, and what is answered *)

Section HandlerProperties.
Import events handlers handlers.UserHandler.
Context {R : Type} `{repository.UserRepository R} `{Decoder}.

Ltac in_statuses :=
  unfold handler_statuses, http.StatusOK, http.StatusCreated, http.StatusNoContent,
    http.StatusBadRequest, http.StatusNotFound, http.StatusMethodNotAllowed;
  rewrite ?elem_of_cons; repeat (first [left; reflexivity | right]).

Lemma wf_error status msg :
  status ∈ handler_statuses ->
  well_formed (apiResponse status (OfErrorBody (mkErrorBody (StringPtr msg)))).
Proof. intros Hs. rewrite apiResponse_error. repeat split. exact Hs. Qed.

Lemma wf_user status (u : option User) :
  status ∈ handler_statuses -> well_formed (apiResponse status (OfUser u)).
Proof.
  intros Hs. destruct u as [u | ].
  - rewrite (apiResponse_marshalled _ _ _ (Marshal_user u)). repeat split. exact Hs.
  - repeat split. exact Hs.
Qed.

Lemma wf_page status users token :
  status ∈ handler_statuses ->
  well_formed (apiResponse status (OfMap (page_body users token))).
Proof.
  intros Hs. rewrite (apiResponse_marshalled _ _ _ (Marshal_page users token)).
  repeat split. exact Hs.
Qed.

Lemma wf_nil status :
  status ∈ handler_statuses -> well_formed (apiResponse status Nil).
Proof. intros Hs. repeat split. exact Hs. Qed.

Lemma wf_not_found (e : error) msg :
  well_formed
    (if String.eqb e repository.ErrorUserDoesNotExist
     then apiResponse http.StatusNotFound (OfErrorBody (mkErrorBody (StringPtr msg)))
     else apiResponse http.StatusBadRequest (OfErrorBody (mkErrorBody (StringPtr e)))).
Proof.
  destruct (String.eqb e repository.ErrorUserDoesNotExist);
    apply wf_error; in_statuses.
Qed.

Lemma GetUser_well_formed (h : t R) req : well_formed (fst (GetUser h req)).
Proof.
  destruct (decide (index (QueryStringParameters req) "email" = "")) as [He | He].
  - rewrite (GetUser_page h req He). cbn [fst].
    destruct (fst (repository.FetchUsers _ _ _)) as [[users token] [e | ]];
      [apply wf_error | apply wf_page]; in_statuses.
  - rewrite (GetUser_by_email h req _ eq_refl He). cbn [fst].
    destruct (fst (repository.FetchUser _ _)) as [[u | ] [e | ]];
      try apply wf_error; try apply wf_user; in_statuses.
Qed.

Lemma CreateUser_well_formed (h : t R) req : well_formed (fst (CreateUser h req)).
Proof.
  unfold CreateUser.
  destruct (UnmarshalUser (ReqBody req)) as [user [e | ]];
    [apply wf_error; in_statuses | ].
  destruct (validators.ValidateUser user) as [e | ];
    [apply wf_error; in_statuses | ].
  destruct (repository.CreateUser (userRepo h) user) as [[u [e | ]] repo];
    [apply wf_error | apply wf_user]; in_statuses.
Qed.

Lemma UpdateUser_well_formed (h : t R) req : well_formed (fst (UpdateUser h req)).
Proof.
  unfold UpdateUser.
  destruct (UnmarshalUser (ReqBody req)) as [user [e | ]];
    [apply wf_error; in_statuses | ].
  destruct (String.eqb (Email user) ""); [apply wf_error; in_statuses | ].
  destruct (validators.ValidateUser user) as [e | ];
    [apply wf_error; in_statuses | ].
  destruct (repository.UpdateUser (userRepo h) user) as [[u [e | ]] repo];
    [ | apply wf_user; in_statuses].
  destruct (String.eqb e repository.ErrorUserDoesNotExist);
    apply wf_error; in_statuses.
Qed.

Lemma DeleteUser_well_formed (h : t R) req : well_formed (fst (DeleteUser h req)).
Proof.
  unfold DeleteUser.
  destruct (String.eqb (index (QueryStringParameters req) "email") "");
    [apply wf_error; in_statuses | ].
  destruct (repository.DeleteUser (userRepo h) _) as [[e | ] repo];
    [ | apply wf_nil; in_statuses].
  destruct (String.eqb e repository.ErrorUserDoesNotExist);
    apply wf_error; in_statuses.
Qed.

(** X11. Whatever the request, the repository and the decoder, the handler
    returns a response and a nil error, with the JSON content type as the
    headers and a status among 200, 201, 204, 400, 404 and 405: every body
    the handlers hand to [apiResponse] marshals, so the fallback with status
    500 is never sent. *)
Theorem X11_every_response_well_formed
  (h : t R) (req : APIGatewayProxyRequest) :
  snd (fst (main.handler h req)) = None
  /\ Headers (fst (fst (main.handler h req))) = json_headers
  /\ StatusCode (fst (fst (main.handler h req))) ∈ handler_statuses
  /\ StatusCode (fst (fst (main.handler h req))) <> 500%Z.
Proof.
  assert (Hwf : well_formed (fst (main.handler h req))).
  { unfold main.handler.
    destruct (String.eqb (HTTPMethod req) "GET"); [apply GetUser_well_formed | ].
    destruct (String.eqb (HTTPMethod req) "POST"); [apply CreateUser_well_formed | ].
    destruct (String.eqb (HTTPMethod req) "PUT"); [apply UpdateUser_well_formed | ].
    destruct (String.eqb (HTTPMethod req) "DELETE"); [apply DeleteUser_well_formed | ].
    apply wf_error. in_statuses. }
  destruct Hwf as (He & Hh & Hs). repeat split; auto.
  intros H500. rewrite H500 in Hs. unfold handler_statuses in Hs.
  rewrite !elem_of_cons in Hs. rewrite elem_of_nil in Hs.
  intuition discriminate.
Qed.

(** X10. A request whose method is none of GET, POST, PUT and DELETE, the
    comparison being exact in the case of the letters, is answered 405 with
    the body [{"error":"Method Not Allowed"}]; the handler, and with it the
    repository, is handed back untouched. *)
Theorem X10_other_method_is_405 (h : t R) (req : APIGatewayProxyRequest) :
  HTTPMethod req <> "GET" -> HTTPMethod req <> "POST" ->
  HTTPMethod req <> "PUT" -> HTTPMethod req <> "DELETE" ->
  main.handler h req
  = ((mkResponse 405 json_headers
        ("{" ++ quoted "error" ++ ":" ++ quoted "Method Not Allowed" ++ "}"), None), h).
Proof.
  intros Hg Hp Hu Hd. unfold main.handler.
  apply String.eqb_neq in Hg, Hp, Hu, Hd. rewrite Hg, Hp, Hu, Hd. reflexivity.
Qed.

(** X8. A POST or PUT request whose body does not decode is answered 400
    with [Invalid request body], and one whose record fails validation is
    answered 400 with the reason (for a PUT with an empty email, with
    [Email is required for user update]); in both cases the handler, and with
    it the repository, is handed back untouched. *)
Theorem X8_invalid_input_stops_at_the_handler
  (h : t R) (req : APIGatewayProxyRequest) :
  HTTPMethod req = "POST" \/ HTTPMethod req = "PUT" ->
  (snd (UnmarshalUser (ReqBody req)) <> None ->
     main.handler h req
     = ((mkResponse 400 json_headers (error_json "Invalid request body"), None), h))
  /\ (forall e,
        snd (UnmarshalUser (ReqBody req)) = None ->
        validators.ValidateUser (fst (UnmarshalUser (ReqBody req))) = Some e ->
        main.handler h req
        = ((mkResponse 400 json_headers
              (error_json
                 (if decide (HTTPMethod req = "PUT"
                             /\ Email (fst (UnmarshalUser (ReqBody req))) = "")
                  then "Email is required for user update" else e)), None), h)).
Proof.
  intros Hm.
  assert (Hh : main.handler h req
               = if String.eqb (HTTPMethod req) "POST" then CreateUser h req
                 else UpdateUser h req).
  { unfold main.handler. destruct Hm as [-> | ->]; reflexivity. }
  rewrite Hh. unfold CreateUser, UpdateUser.
  destruct (UnmarshalUser (ReqBody req)) as [user err]. cbn [fst snd]. split.
  - intros Herr. destruct err as [e | ]; [ | congruence].
    destruct (String.eqb (HTTPMethod req) "POST"); reflexivity.
  - intros e -> Hv. rewrite Hv.
    destruct (String.eqb_spec (HTTPMethod req) "POST") as [Hp | Hp].
    + destruct (decide _) as [[Hput _] | _]; [congruence | reflexivity].
    + destruct Hm as [Hm | Hm]; [contradiction | ].
      destruct (String.eqb_spec (Email user) "") as [He | He];
        destruct (decide _) as [[_ He'] | Hn]; try reflexivity; try contradiction.
      exfalso. apply Hn. auto.
Qed.

(** X9. A DELETE request whose [email] parameter is missing or empty is
    answered 400 with [Email query parameter is required for deletion]; the
    handler, and with it the repository, is handed back untouched. *)
Theorem X9_delete_needs_an_email (h : t R) (req : APIGatewayProxyRequest) :
  HTTPMethod req = "DELETE" ->
  QueryStringParameters req !! "email" = None
  \/ QueryStringParameters req !! "email" = Some "" ->
  main.handler h req
  = ((mkResponse 400 json_headers
        (error_json "Email query parameter is required for deletion"), None), h).
Proof.
  intros Hm Hp. rewrite (handler_DELETE h req Hm). unfold DeleteUser.
  assert (Hi : index (QueryStringParameters req) "email" = "").
  { destruct Hp as [Hp | Hp]; [apply index_None | apply index_Some]; exact Hp. }
  rewrite Hi. reflexivity.
Qed.

End HandlerProperties.

Lemma X10_witness :
  main.handler (handlers.UserHandler.New empty_repo)
    (events.mkRequest "get" "/" {[ "email" := "a@b.com" ]} "")
  = ((events.mkResponse 405 json_headers
        ("{" ++ quoted "error" ++ ":" ++ quoted "Method Not Allowed" ++ "}"), None),
     handlers.UserHandler.New empty_repo).
Proof. apply X10_other_method_is_405; discriminate. Defined.

Lemma X8_witness :
  main.handler (handlers.UserHandler.New empty_repo) (post_request "{")
  = ((events.mkResponse 400 json_headers (error_json "Invalid request body"), None),
     handlers.UserHandler.New empty_repo)
  /\ main.handler (H0 := email_decoder) (handlers.UserHandler.New empty_repo)
       (put_request "")
     = ((events.mkResponse 400 json_headers
           (error_json "Email is required for user update"), None),
        handlers.UserHandler.New empty_repo).
Proof.
  split.
  - apply (proj1 (X8_invalid_input_stops_at_the_handler
                    (handlers.UserHandler.New empty_repo) (post_request "{")
                    (or_introl eq_refl))).
    discriminate.
  - apply (proj2 (X8_invalid_input_stops_at_the_handler (H0 := email_decoder)
                    (handlers.UserHandler.New empty_repo) (put_request "")
                    (or_intror eq_refl)) "email is required"); reflexivity.
Defined.

Lemma X9_witness :
  main.handler (handlers.UserHandler.New alice_repo) (delete_request {[ "email" := "" ]})
  = ((events.mkResponse 400 json_headers
        (error_json "Email query parameter is required for deletion"), None),
     handlers.UserHandler.New alice_repo).
Proof.
  apply X9_delete_needs_an_email; [reflexivity | right; reflexivity].
Defined.

Section OneCall.
Import events handlers handlers.UserHandler.
Context {R : Type} `{repository.UserRepository R} `{Decoder}.

(** Serving a request leaves the handler untouched or performs one operation
    of the repository, which belongs to the method of the request. *)
Lemma handler_next (h : t R) (req : APIGatewayProxyRequest) :
  snd (main.handler h req) = h
  \/ exists c, call_of_method (HTTPMethod req) c
               /\ snd (main.handler h req) = mk (perform (userRepo h) c).
Proof.
  unfold main.handler.
  destruct (String.eqb_spec (HTTPMethod req) "GET") as [Hg | Hg].
  { right.
    destruct (decide (index (QueryStringParameters req) "email" = "")) as [He | He].
    - rewrite (GetUser_page h req He). eexists (recording.CallFetchUsers _ _).
      split; [exact Hg | reflexivity].
    - rewrite (GetUser_by_email h req _ eq_refl He).
      eexists (recording.CallFetchUser _). split; [exact Hg | reflexivity]. }
  destruct (String.eqb_spec (HTTPMethod req) "POST") as [Hp | Hp].
  { unfold CreateUser.
    destruct (UnmarshalUser (ReqBody req)) as [user [e | ]]; [left; reflexivity | ].
    destruct (validators.ValidateUser user) as [e | ] eqn:Hv; [left; reflexivity | ].
    right. exists (recording.CallCreateUser user). split; [split; assumption | ].
    cbn [perform].
    destruct (repository.CreateUser (userRepo h) user) as [[u [e | ]] repo];
      reflexivity. }
  destruct (String.eqb_spec (HTTPMethod req) "PUT") as [Hu | Hu].
  { unfold UpdateUser.
    destruct (UnmarshalUser (ReqBody req)) as [user [e | ]]; [left; reflexivity | ].
    destruct (String.eqb (Email user) ""); [left; reflexivity | ].
    destruct (validators.ValidateUser user) as [e | ] eqn:Hv; [left; reflexivity | ].
    right. exists (recording.CallUpdateUser user). split; [split; assumption | ].
    cbn [perform].
    destruct (repository.UpdateUser (userRepo h) user) as [[u [e | ]] repo];
      [ | reflexivity].
    destruct (String.eqb e repository.ErrorUserDoesNotExist); reflexivity. }
  destruct (String.eqb_spec (HTTPMethod req) "DELETE") as [Hd | Hd];
    [ | left; reflexivity].
  unfold DeleteUser.
  destruct (String.eqb_spec (index (QueryStringParameters req) "email") "")
    as [He | He]; [left; reflexivity | ].
  right. exists (recording.CallDeleteUser (index (QueryStringParameters req) "email")).
  split; [split; assumption | ]. cbn [perform].
  destruct (repository.DeleteUser (userRepo h) _) as [[e | ] repo]; [ | reflexivity].
  destruct (String.eqb e repository.ErrorUserDoesNotExist); reflexivity.
Qed.

End OneCall.

Section Recorded.
Import events handlers handlers.UserHandler.
Context {R : Type} `{repository.UserRepository R} `{Decoder}.

Lemma perform_recorded (r : recording.t R) (c : recording.Call) :
  recording.calls (perform r c) = (recording.calls r ++ [c])%list.
Proof. destruct c; reflexivity. Qed.

(** X14. Serving one request makes at most one call to the repository, and
    only a call of the method of the request: a GET only fetches, a POST
    only creates, a PUT only updates, a DELETE only deletes, no other method
    calls at all; a record reaches a create or an update only when it passes
    validation, and an email reaches a delete only when it is not empty. *)
Theorem X14_at_most_one_call_of_the_method
  (h : t (recording.t R)) (req : APIGatewayProxyRequest) :
  exists l,
    recording.calls (userRepo (snd (main.handler h req)))
    = (recording.calls (userRepo h) ++ l)%list
    /\ match l with
       | [] => True
       | [c] => call_of_method (HTTPMethod req) c
       | _ => False
       end.
Proof.
  destruct (handler_next h req) as [-> | (c & Hc & ->)].
  - exists []. rewrite app_nil_r. auto.
  - exists [c]. cbn [userRepo]. rewrite perform_recorded. auto.
Qed.

Lemma Atoi_range s l :
  strconv.Atoi s = Some l -> (strconv.minInt <= l <= strconv.maxInt)%Z.
Proof.
  unfold strconv.Atoi.
  destruct (match s with
            | String "+" s' => strconv.unsigned s'
            | String "-" s' => Z.opp <$> strconv.unsigned s'
            | _ => strconv.unsigned s
            end) as [n | ]; [ | discriminate].
  destruct ((strconv.minInt <=? n)%Z && (n <=? strconv.maxInt)%Z) eqn:Hb;
    [ | discriminate].
  intros Heq. injection Heq as <-. apply andb_true_iff in Hb as [H1 H2]. lia.
Qed.

Lemma page_limit_range (params : gmap string string) :
  (1 <= page_limit params <= strconv.maxInt)%Z
  /\ (page_limit params = 10%Z
      \/ strconv.Atoi (index params "limit") = Some (page_limit params)).
Proof.
  assert (Hten : (1 <= 10 <= strconv.maxInt)%Z) by (unfold strconv.maxInt; lia).
  unfold page_limit, index.
  destruct (params !! "limit") as [text | ]; simpl; [ | auto].
  destruct (strconv.Atoi text) as [l | ] eqn:Ha; [ | auto].
  destruct (Z.leb_spec l 0); [auto | ].
  apply Atoi_range in Ha. split; [lia | auto].
Qed.

(** X12. A GET request without an [email] value is passed on as one
    [FetchUsers] whose limit is at least 1 and within the range of [int]:
    it is the [limit] parameter as [Atoi] reads it, or else 10. *)
Theorem X12_page_limit_is_positive
  (h : t (recording.t R)) (req : APIGatewayProxyRequest) :
  HTTPMethod req = "GET" ->
  index (QueryStringParameters req) "email" = "" ->
  exists limit,
    recording.calls (userRepo (snd (main.handler h req)))
    = (recording.calls (userRepo h)
         ++ [recording.CallFetchUsers limit
               (index (QueryStringParameters req) "lastEvaluatedKey")])%list
    /\ (1 <= limit <= strconv.maxInt)%Z
    /\ (limit = 10%Z
        \/ strconv.Atoi (index (QueryStringParameters req) "limit") = Some limit).
Proof.
  intros Hm He. rewrite (handler_GET h req Hm), (GetUser_page h req He).
  exists (page_limit (QueryStringParameters req)).
  split; [reflexivity | apply page_limit_range].
Qed.

End Recorded.

Lemma X12_witness :
  exists limit,
    recording.calls
      (handlers.UserHandler.userRepo
         (snd (main.handler (handlers.UserHandler.New (recording.mk alice_repo []))
                 (get_request {[ "limit" := "0" ]}))))
    = [recording.CallFetchUsers limit ""]
    /\ (1 <= limit <= strconv.maxInt)%Z
    /\ (limit = 10%Z \/ strconv.Atoi "0" = Some limit).
Proof.
  exact (X12_page_limit_is_positive
           (handlers.UserHandler.New (recording.mk alice_repo []))
           (get_request {[ "limit" := "0" ]}) eq_refl eq_refl).
Defined.

(** ** Invariants of the table under requests *)

Section ApiInvariants.
Import dynamodb repository repository.DynamoDBUserRepository events handlers.
Context `{Decoder}.

Lemma FetchUser_table repo email : table (snd (FetchUser repo email)) = table repo.
Proof.
  rewrite FetchUser_eq.
  destruct (fst (call (client repo))) as [e | ];
    [ | destruct (lookup email (table repo)) as [[u | k why] | ]];
    apply table_served.
Qed.

Lemma elem_of_put x it l : x ∈ put it l -> x = it \/ x ∈ l.
Proof.
  induction l as [ | y l IH]; simpl.
  - rewrite list_elem_of_singleton. auto.
  - destruct (String.eqb (key y) (key it)); rewrite !elem_of_cons; [tauto | ].
    intros [-> | Hin]; [tauto | ]. destruct (IH Hin); tauto.
Qed.

Lemma elem_of_remove x k l : x ∈ remove k l -> x ∈ l.
Proof.
  unfold remove. intros Hin. apply list_elem_of_In in Hin.
  apply List.filter_In in Hin as [Hin _]. apply list_elem_of_In. exact Hin.
Qed.

Lemma all_valid_put u l :
  validators.ValidateUser u = None -> all_valid l -> all_valid (put (ItemUser u) l).
Proof.
  intros Hv Hl it Hin. apply elem_of_put in Hin as [-> | Hin]; [eauto | auto].
Qed.

Lemma all_valid_remove k l : all_valid l -> all_valid (remove k l).
Proof. intros Hl it Hin. apply Hl. eapply elem_of_remove. exact Hin. Qed.

(** What a call that a request makes leaves in the table. *)
Lemma perform_valid (repo : t) (c : recording.Call) (method : string) :
  call_of_method method c ->
  all_valid (table repo) -> all_valid (table (perform repo c)).
Proof.
  intros Hc Hl. destruct c as [email | limit k | u | u | email];
    cbn [perform repository.FetchUser repository.FetchUsers repository.CreateUser
         repository.UpdateUser repository.DeleteUser implements].
  - rewrite FetchUser_table. exact Hl.
  - rewrite FetchUsers_table. exact Hl.
  - destruct Hc as [_ Hv].
    destruct (CreateUser_table repo u) as [[_ ->] | [_ ->]];
      [exact Hl | apply all_valid_put; assumption].
  - destruct Hc as [_ Hv].
    destruct (UpdateUser_table repo u) as [[_ ->] | [_ ->]];
      [exact Hl | apply all_valid_put; assumption].
  - destruct (DeleteUser_table repo email) as [[_ ->] | [_ ->]];
      [exact Hl | apply all_valid_remove; exact Hl].
Qed.

Lemma handler_keeps (h : UserHandler.t t) (req : APIGatewayProxyRequest) :
  all_valid (table (UserHandler.userRepo h))
  /\ unique_emails (table (UserHandler.userRepo h)) ->
  all_valid (table (UserHandler.userRepo (snd (main.handler h req))))
  /\ unique_emails (table (UserHandler.userRepo (snd (main.handler h req)))).
Proof.
  intros [Hv Hu].
  destruct (handler_next h req) as [-> | (c & Hc & ->)]; [auto | ].
  cbn [UserHandler.userRepo]. split.
  - eapply perform_valid; eassumption.
  - apply perform_unique. exact Hu.
Qed.

(** X13. Over the table, serving any sequence of requests keeps two
    invariants, whatever the transport does to each call: every stored item
    is a user record that passes [ValidateUser] (the repository does not
    validate, but no record reaches it unvalidated), and no two stored items
    share an email. *)
Theorem X13_requests_keep_the_table_valid
  (h : UserHandler.t t) (reqs : list APIGatewayProxyRequest) :
  all_valid (table (UserHandler.userRepo h)) ->
  unique_emails (table (UserHandler.userRepo h)) ->
  all_valid (table (UserHandler.userRepo (serve h reqs)))
  /\ unique_emails (table (UserHandler.userRepo (serve h reqs))).
Proof.
  intros Hv Hu. assert (Hboth := conj Hv Hu). clear Hv Hu. revert h Hboth.
  unfold serve. induction reqs as [ | req reqs IH]; intros h Hboth; simpl.
  - exact Hboth.
  - apply IH. apply handler_keeps. exact Hboth.
Qed.

End ApiInvariants.

Lemma valid_alice : all_valid (table alice_repo).
Proof.
  intros it Hin. apply list_elem_of_singleton in Hin. subst it.
  exists alice. split; [reflexivity | vm_compute; reflexivity].
Defined.

Lemma X13_witness :
  let h := serve (handlers.UserHandler.New alice_repo)
             [ post_request alice_json;
               delete_request {[ "email" := "a@b.com" ]};
               post_request alice_json;
               put_request alice_json ] in
  all_valid (table (handlers.UserHandler.userRepo h))
  /\ unique_emails (table (handlers.UserHandler.userRepo h)).
Proof.
  intros h. apply X13_requests_keep_the_table_valid;
    [exact valid_alice | exact unique_alice].
Defined.

(** ** Requests end to end, over the table *)

Section EndToEnd.
Import dynamodb repository repository.DynamoDBUserRepository events handlers.
Context `{Decoder}.

Lemma handler_POST {R : Type} `{UserRepository R}
  (h : UserHandler.t R) (req : APIGatewayProxyRequest) :
  HTTPMethod req = "POST" -> main.handler h req = UserHandler.CreateUser h req.
Proof. unfold main.handler. intros ->. reflexivity. Qed.

Lemma reliable_answers repo : reliable repo -> answers repo.
Proof.
  unfold reliable, answers, call. destruct (faults (client repo)) as [ | f fs];
    [reflexivity | ].
  intros Hr. inversion Hr; subst. reflexivity.
Qed.

Lemma reliable_served repo : reliable repo -> reliable (served repo).
Proof.
  unfold reliable, served, call. cbn [client].
  destruct (faults (client repo)) as [ | f fs] eqn:Hf; cbn [snd faults].
  - rewrite Hf. auto.
  - intros Hr. inversion Hr; subst. assumption.
Qed.

Lemma reliable_put_user repo user : reliable repo -> reliable (snd (put_user repo user)).
Proof.
  intros Hr. unfold put_user.
  destruct (fst (call (client repo))); cbn [snd];
    [apply reliable_served; exact Hr | ].
  unfold reliable. cbn [client faults]. apply (reliable_served repo Hr).
Qed.

Lemma reliable_CreateUser repo r : reliable repo -> reliable (snd (CreateUser repo r)).
Proof.
  intros Hr. rewrite CreateUser_eq.
  destruct (fst (call (client repo))); [apply reliable_served; exact Hr | ].
  destruct (lookup (Email r) (table repo)) as [[u | k why] | ];
    try (apply reliable_served; exact Hr).
  apply reliable_put_user, reliable_served, Hr.
Qed.

Lemma reliable_UpdateUser repo r : reliable repo -> reliable (snd (UpdateUser repo r)).
Proof.
  intros Hr. rewrite UpdateUser_eq.
  destruct (fst (call (client repo))); [apply reliable_served; exact Hr | ].
  destruct (lookup (Email r) (table repo)) as [[u | k why] | ];
    try (apply reliable_served; exact Hr).
  apply reliable_put_user, reliable_served, Hr.
Qed.

Lemma reliable_DeleteUser repo email :
  reliable repo -> reliable (snd (DeleteUser repo email)).
Proof.
  intros Hr. rewrite DeleteUser_eq.
  destruct (fst (call (client repo))); [apply reliable_served; exact Hr | ].
  destruct (lookup email (table repo)) as [[u | k why] | ];
    try (apply reliable_served; exact Hr).
  destruct (fst (call (client (served repo)))); cbn [snd];
    [apply reliable_served, reliable_served, Hr | ].
  unfold reliable. cbn [client faults].
  apply (reliable_served _ (reliable_served _ Hr)).
Qed.

Lemma valid_email_not_empty u : validators.ValidateUser u = None -> Email u <> "".
Proof.
  unfold validators.ValidateUser. intros Hv He. rewrite He in Hv. discriminate.
Qed.

(** A GET by email over the table, the store answering. *)
Lemma get_by_email (repo : t) (email : string) :
  email <> "" -> answers repo ->
  fst (main.handler (UserHandler.New repo) (get_request {[ "email" := email ]}))
  = match lookup email (table repo) with
    | Some (ItemUser u) => (mkResponse 200 json_headers (user_json u), None)
    | Some (ItemOther _ why) =>
        (mkResponse 400 json_headers
           (error_json (ErrorFailedToUnmarshalRecord ++ ": " ++ why)), None)
    | None =>
        (mkResponse 404 json_headers
           ("{" ++ quoted "error" ++ ":" ++ quoted "User not found" ++ "}"), None)
    end.
Proof.
  intros Hne Ha.
  rewrite (handler_GET (UserHandler.New repo) (get_request {[ "email" := email ]})
             eq_refl).
  rewrite (GetUser_by_email _ _ email (index_Some _ _ _ (lookup_singleton_eq _ _)) Hne).
  cbn [fst UserHandler.New UserHandler.userRepo repository.FetchUser implements].
  rewrite FetchUser_eq. unfold answers in Ha. rewrite Ha.
  destruct (lookup email (table repo)) as [[u | k why] | ]; cbn [fst].
  - apply (apiResponse_marshalled _ _ _ (Marshal_user u)).
  - unfold Errorf. apply apiResponse_error.
  - reflexivity.
Qed.

(** X15. A POST whose body decodes to a record that passes validation, for
    an email the table does not hold and with a store that answers, is
    answered 201 with the JSON text of the record, which is added to the
    table; a GET of that email is then answered 200 with the same text. *)
Theorem X15_post_then_get (repo : t) (req : APIGatewayProxyRequest) (u : User) :
  HTTPMethod req = "POST" ->
  UnmarshalUser (ReqBody req) = (u, None) ->
  validators.ValidateUser u = None ->
  lookup (Email u) (table repo) = None ->
  reliable repo ->
  let out := main.handler (UserHandler.New repo) req in
  fst out = (mkResponse 201 json_headers (user_json u), None)
  /\ table (UserHandler.userRepo (snd out)) = (table repo ++ [ItemUser u])%list
  /\ fst (main.handler (snd out) (get_request {[ "email" := Email u ]}))
     = (mkResponse 200 json_headers (user_json u), None).
Proof.
  intros Hm Hbody Hv Hl Hr out. subst out.
  rewrite (handler_POST _ _ Hm). unfold UserHandler.CreateUser.
  rewrite Hbody, Hv.
  cbn [UserHandler.New UserHandler.userRepo repository.CreateUser implements].
  pose proof (reliable_CreateUser repo u Hr) as Hr1.
  assert (Hc : fst (CreateUser repo u) = (Some u, None)
               /\ table (snd (CreateUser repo u)) = (table repo ++ [ItemUser u])%list).
  { rewrite CreateUser_eq, Hl.
    rewrite (reliable_answers _ Hr : fst (call (client repo)) = None).
    destruct (put_user_answered (served repo) u
                (reliable_answers _ (reliable_served _ Hr))) as [Hres Ht].
    rewrite table_served in Ht. split; [exact Hres | ].
    rewrite Ht. apply (put_absent (ItemUser u)). exact Hl. }
  destruct (CreateUser repo u) as [[cu err] repo1]. cbn [fst snd] in *.
  destruct Hc as [Hres Ht]. injection Hres as -> ->. cbn [fst snd UserHandler.userRepo].
  split; [apply (apiResponse_marshalled _ _ _ (Marshal_user u)) | ].
  split; [exact Ht | ].
  change (UserHandler.mk repo1) with (UserHandler.New repo1).
  rewrite (get_by_email repo1 (Email u) (valid_email_not_empty u Hv)
             (reliable_answers _ Hr1)).
  rewrite Ht, <- (put_absent (ItemUser u) _ Hl), (lookup_put_eq (ItemUser u)).
  reflexivity.
Qed.

(** X16. A POST of a valid record under an email the table already holds,
    the store answering the lookup, is answered 400 (the status of every
    failed create) with the body [{"error":"user already exists"}], and the
    table is as it was. *)
Theorem X16_post_existing_is_400
  (repo : t) (req : APIGatewayProxyRequest) (u old : User) :
  HTTPMethod req = "POST" ->
  UnmarshalUser (ReqBody req) = (u, None) ->
  validators.ValidateUser u = None ->
  lookup (Email u) (table repo) = Some (ItemUser old) ->
  answers repo ->
  let out := main.handler (UserHandler.New repo) req in
  fst out = (mkResponse 400 json_headers
               ("{" ++ quoted "error" ++ ":" ++ quoted "user already exists" ++ "}"),
             None)
  /\ table (UserHandler.userRepo (snd out)) = table repo.
Proof.
  intros Hm Hbody Hv Hl Ha out. subst out.
  rewrite (handler_POST _ _ Hm). unfold UserHandler.CreateUser.
  rewrite Hbody, Hv.
  cbn [UserHandler.New UserHandler.userRepo repository.CreateUser implements].
  rewrite CreateUser_eq, Hl. unfold answers in Ha. rewrite Ha.
  cbn [fst snd UserHandler.userRepo]. split; [reflexivity | apply table_served].
Qed.

(** X17. After a DELETE of a record the table holds, with a store that
    answers, the record is gone for the API: a GET of the email is answered
    404 with [{"error":"User not found"}], and a second DELETE is answered
    404 with [{"error":"User not found for deletion"}]. *)
Theorem X17_delete_then_get_is_404 (repo : t) (email : string) (old : User) :
  email <> "" ->
  lookup email (table repo) = Some (ItemUser old) ->
  reliable repo ->
  let h := snd (main.handler (UserHandler.New repo)
                  (delete_request {[ "email" := email ]})) in
  fst (main.handler h (get_request {[ "email" := email ]}))
  = (mkResponse 404 json_headers
       ("{" ++ quoted "error" ++ ":" ++ quoted "User not found" ++ "}"), None)
  /\ fst (main.handler h (delete_request {[ "email" := email ]}))
     = (mkResponse 404 json_headers
          ("{" ++ quoted "error" ++ ":" ++ quoted "User not found for deletion" ++ "}"),
        None).
Proof.
  intros Hne Hl Hr h. subst h.
  rewrite (handler_DELETE (UserHandler.New repo)
             (delete_request {[ "email" := email ]}) eq_refl).
  rewrite (DeleteUser_reaches _ _ email (lookup_singleton_eq _ _) Hne).
  cbn [snd UserHandler.New UserHandler.userRepo repository.DeleteUser implements].
  pose proof (reliable_DeleteUser repo email Hr) as Hr1.
  assert (Ht : lookup email (table (snd (DeleteUser repo email))) = None).
  { destruct (DeleteUser_table repo email) as [[Herr _] | [_ ->]];
      [ | apply lookup_remove].
    exfalso. apply Herr. rewrite DeleteUser_eq, Hl.
    rewrite (reliable_answers _ Hr : fst (call (client repo)) = None).
    rewrite (reliable_answers _ (reliable_served _ Hr)
             : fst (call (client (served repo))) = None).
    reflexivity. }
  set (repo1 := snd (DeleteUser repo email)) in *.
  change (UserHandler.mk repo1) with (UserHandler.New repo1). split.
  - rewrite (get_by_email repo1 email Hne (reliable_answers _ Hr1)), Ht.
    reflexivity.
  - rewrite (handler_DELETE (UserHandler.New repo1)
               (delete_request {[ "email" := email ]}) eq_refl).
    rewrite (DeleteUser_reaches _ _ email (lookup_singleton_eq _ _) Hne).
    cbn [fst UserHandler.New UserHandler.userRepo repository.DeleteUser implements].
    rewrite DeleteUser_eq, Ht.
    rewrite (reliable_answers _ Hr1 : fst (call (client repo1)) = None).
    reflexivity.
Qed.

(** X18. A PUT whose body decodes to a record that passes validation, for an
    email the table holds and with a store that answers, is answered 200
    with the JSON text of the new record; a GET of the email is then
    answered 200 with that same text: the record is replaced whole. *)
Theorem X18_put_then_get
  (repo : t) (req : APIGatewayProxyRequest) (u old : User) :
  HTTPMethod req = "PUT" ->
  UnmarshalUser (ReqBody req) = (u, None) ->
  validators.ValidateUser u = None ->
  lookup (Email u) (table repo) = Some (ItemUser old) ->
  reliable repo ->
  let out := main.handler (UserHandler.New repo) req in
  fst out = (mkResponse 200 json_headers (user_json u), None)
  /\ fst (main.handler (snd out) (get_request {[ "email" := Email u ]}))
     = (mkResponse 200 json_headers (user_json u), None).
Proof.
  intros Hm Hbody Hv Hl Hr out. subst out.
  rewrite (handler_PUT _ _ Hm), (UpdateUser_reaches _ _ u Hbody Hv).
  cbn [UserHandler.New UserHandler.userRepo repository.UpdateUser implements].
  pose proof (reliable_UpdateUser repo u Hr) as Hr1.
  assert (Hc : fst (UpdateUser repo u) = (Some u, None)
               /\ table (snd (UpdateUser repo u)) = put (ItemUser u) (table repo)).
  { rewrite UpdateUser_eq, Hl.
    rewrite (reliable_answers _ Hr : fst (call (client repo)) = None).
    destruct (put_user_answered (served repo) u
                (reliable_answers _ (reliable_served _ Hr))) as [Hres Ht].
    rewrite table_served in Ht. auto. }
  destruct (UpdateUser repo u) as [[cu err] repo1]. cbn [fst snd] in *.
  destruct Hc as [Hres Ht]. injection Hres as -> ->. cbn [fst snd].
  split; [apply (apiResponse_marshalled _ _ _ (Marshal_user u)) | ].
  change (UserHandler.mk repo1) with (UserHandler.New repo1).
  rewrite (get_by_email repo1 (Email u) (valid_email_not_empty u Hv)
             (reliable_answers _ Hr1)).
  rewrite Ht, (lookup_put_eq (ItemUser u)). reflexivity.
Qed.

End EndToEnd.

Lemma reliable_empty_repo : reliable empty_repo.
Proof. apply Forall_nil. exact I. Defined.

Lemma reliable_alice_repo : reliable alice_repo.
Proof. apply Forall_nil. exact I. Defined.

Lemma X15_witness :
  let out := main.handler (handlers.UserHandler.New empty_repo)
               (post_request alice_json) in
  fst out = (events.mkResponse 201 json_headers (user_json alice), None)
  /\ table (handlers.UserHandler.userRepo (snd out)) = [dynamodb.ItemUser alice]
  /\ fst (main.handler (snd out) (get_request {[ "email" := "a@b.com" ]}))
     = (events.mkResponse 200 json_headers (user_json alice), None).
Proof.
  apply (X15_post_then_get empty_repo (post_request alice_json) alice);
    [reflexivity | reflexivity | vm_compute; reflexivity | reflexivity
     | exact reliable_empty_repo].
Defined.

Lemma X16_witness :
  let out := main.handler (handlers.UserHandler.New alice_repo)
               (post_request alice_json) in
  fst out = (events.mkResponse 400 json_headers
               ("{" ++ quoted "error" ++ ":" ++ quoted "user already exists" ++ "}"),
             None)
  /\ table (handlers.UserHandler.userRepo (snd out)) = table alice_repo.
Proof.
  apply (X16_post_existing_is_400 alice_repo (post_request alice_json) alice alice);
    [reflexivity | reflexivity | vm_compute; reflexivity | reflexivity | reflexivity].
Defined.

Lemma X17_witness :
  let h := snd (main.handler (handlers.UserHandler.New alice_repo)
                  (delete_request {[ "email" := "a@b.com" ]})) in
  fst (main.handler h (get_request {[ "email" := "a@b.com" ]}))
  = (events.mkResponse 404 json_headers
       ("{" ++ quoted "error" ++ ":" ++ quoted "User not found" ++ "}"), None)
  /\ fst (main.handler h (delete_request {[ "email" := "a@b.com" ]}))
     = (events.mkResponse 404 json_headers
          ("{" ++ quoted "error" ++ ":" ++ quoted "User not found for deletion" ++ "}"),
        None).
Proof.
  apply (X17_delete_then_get_is_404 alice_repo "a@b.com" alice);
    [discriminate | reflexivity | exact reliable_alice_repo].
Defined.

Lemma X18_witness :
  let out := main.handler (H0 := email_decoder) (handlers.UserHandler.New alice_repo)
               (put_request "a@b.com") in
  fst out = (events.mkResponse 200 json_headers (user_json alice), None)
  /\ fst (main.handler (H0 := email_decoder) (snd out)
            (get_request {[ "email" := "a@b.com" ]}))
     = (events.mkResponse 200 json_headers (user_json alice), None).
Proof.
  apply (X18_put_then_get (H := email_decoder) alice_repo (put_request "a@b.com")
           alice alice);
    [reflexivity | reflexivity | vm_compute; reflexivity | reflexivity
     | exact reliable_alice_repo].
Defined.

(** ** The configuration *)

(** X19. [LoadConfig] returns a configuration exactly when both variables
    are set to texts that are not empty, and then returns those texts; a
    variable set to the empty text counts as not set.  Otherwise it returns
    no configuration and the error of the first variable that is missing,
    [AWS_REGION] before [DYNAMODB_TABLE_NAME]. *)
Theorem X19_LoadConfig (env : gmap string string) :
  (forall c,
     config.LoadConfig env = (Some c, None)
     <-> env !! "AWS_REGION" = Some (config.AWSRegion c)
         /\ config.AWSRegion c <> ""
         /\ env !! "DYNAMODB_TABLE_NAME" = Some (config.TableName c)
         /\ config.TableName c <> "")
  /\ (config.LoadConfig env
      = (None, Some "AWS_REGION environment variable not set")
      <-> env !! "AWS_REGION" = None \/ env !! "AWS_REGION" = Some "")
  /\ (config.LoadConfig env
      = (None, Some "DYNAMODB_TABLE_NAME environment variable not set")
      <-> (exists region, env !! "AWS_REGION" = Some region /\ region <> "")
          /\ (env !! "DYNAMODB_TABLE_NAME" = None
              \/ env !! "DYNAMODB_TABLE_NAME" = Some ""))
  /\ (fst (config.LoadConfig env) = None <-> snd (config.LoadConfig env) <> None).
Proof.
  unfold config.LoadConfig, os.Getenv, errors.New.
  destruct (env !! "AWS_REGION") as [region | ]; simpl.
  2: { repeat split; try discriminate; auto.
       - intros (Hc & _). discriminate.
       - intros [(r & Hr & _) _]. discriminate. }
  destruct (String.eqb_spec region "") as [-> | Hr]; simpl.
  { repeat split; try discriminate; auto.
    - intros (Hc & Hne & _). injection Hc as Hc. congruence.
    - intros [(r & Hr & Hne) _]. injection Hr as <-. contradiction. }
  destruct (env !! "DYNAMODB_TABLE_NAME") as [name | ]; simpl.
  2: { repeat split; try discriminate; eauto.
       - intros (_ & _ & Hc & _). discriminate.
       - intros [Hc | Hc]; [discriminate | injection Hc as ->; contradiction]. }
  destruct (String.eqb_spec name "") as [-> | Hn]; simpl.
  { repeat split; try discriminate; eauto.
    - intros (_ & _ & Hc & Hne). injection Hc as Hc. congruence.
    - intros [Hc | Hc]; [discriminate | injection Hc as ->; contradiction]. }
  repeat split; try discriminate.
  - injection H as <-. reflexivity.
  - injection H as <-. exact Hr.
  - injection H as <-. reflexivity.
  - injection H as <-. exact Hn.
  - intros (Ha & _ & Ht & _). destruct c as [a t]. simpl in *. congruence.
  - intros [Hc | Hc]; [discriminate | injection Hc as ->; contradiction].
  - intros [_ [Hc | Hc]]; [discriminate | injection Hc as ->; contradiction].
  - intros Hc. contradiction.
Qed.

Lemma X19_witness :
  config.LoadConfig sample_env
  = (Some (config.mkConfig "us-east-1" "LambdaInGoUser"), None)
  /\ config.LoadConfig (<[ "DYNAMODB_TABLE_NAME" := "" ]> sample_env)
     = (None, Some "DYNAMODB_TABLE_NAME environment variable not set").
Proof.
  split.
  - apply (proj1 (X19_LoadConfig sample_env)).
    repeat split; try reflexivity; discriminate.
  - apply (proj1 (proj2 (proj2 (X19_LoadConfig
                                  (<[ "DYNAMODB_TABLE_NAME" := "" ]> sample_env))))).
    split; [exists "us-east-1"; split; [reflexivity | discriminate]
           | right; reflexivity].
Defined.

(** ** The statuses of each method *)

Section MethodStatuses.
Import events handlers handlers.UserHandler.
Context {R : Type} `{repository.UserRepository R} `{Decoder}.

Lemma status_error status msg :
  StatusCode (fst (apiResponse status (OfErrorBody (mkErrorBody (StringPtr msg)))))
  = status.
Proof. rewrite apiResponse_error. reflexivity. Qed.

Lemma status_user status (u : option User) :
  StatusCode (fst (apiResponse status (OfUser u))) = status.
Proof.
  destruct u as [u | ]; [ | reflexivity].
  rewrite (apiResponse_marshalled _ _ _ (Marshal_user u)). reflexivity.
Qed.

Lemma status_page status users token :
  StatusCode (fst (apiResponse status (OfMap (page_body users token)))) = status.
Proof.
  rewrite (apiResponse_marshalled _ _ _ (Marshal_page users token)). reflexivity.
Qed.

Ltac among :=
  unfold http.StatusOK, http.StatusCreated, http.StatusNoContent,
    http.StatusBadRequest, http.StatusNotFound, http.StatusMethodNotAllowed;
  rewrite ?elem_of_cons; repeat (first [left; reflexivity | right]).

(** X20. The status of a response is fixed by the method: a GET is answered
    200, 400 or 404; a POST 201 or 400, never 404 or 409; a PUT 200, 400 or
    404; a DELETE 204, 400 or 404; every other method 405. *)
Theorem X20_statuses_by_method (h : t R) (req : APIGatewayProxyRequest) :
  StatusCode (fst (fst (main.handler h req))) ∈ method_statuses (HTTPMethod req).
Proof.
  unfold main.handler, method_statuses.
  destruct (String.eqb (HTTPMethod req) "GET").
  { destruct (decide (index (QueryStringParameters req) "email" = "")) as [He | He].
    - rewrite (GetUser_page h req He). cbn [fst].
      destruct (fst (repository.FetchUsers _ _ _)) as [[users token] [e | ]];
        rewrite ?status_error, ?status_page; among.
    - rewrite (GetUser_by_email h req _ eq_refl He). cbn [fst].
      destruct (fst (repository.FetchUser _ _)) as [[u | ] [e | ]];
        rewrite ?status_error, ?status_user; among. }
  destruct (String.eqb (HTTPMethod req) "POST").
  { unfold CreateUser.
    destruct (UnmarshalUser (ReqBody req)) as [user [e | ]];
      [cbn [fst]; rewrite status_error; among | ].
    destruct (validators.ValidateUser user) as [e | ];
      [cbn [fst]; rewrite status_error; among | ].
    destruct (repository.CreateUser (userRepo h) user) as [[u [e | ]] repo];
      cbn [fst]; rewrite ?status_error, ?status_user; among. }
  destruct (String.eqb (HTTPMethod req) "PUT").
  { unfold UpdateUser.
    destruct (UnmarshalUser (ReqBody req)) as [user [e | ]];
      [cbn [fst]; rewrite status_error; among | ].
    destruct (String.eqb (Email user) "");
      [cbn [fst]; rewrite status_error; among | ].
    destruct (validators.ValidateUser user) as [e | ];
      [cbn [fst]; rewrite status_error; among | ].
    destruct (repository.UpdateUser (userRepo h) user) as [[u [e | ]] repo];
      [ | cbn [fst]; rewrite status_user; among].
    destruct (String.eqb e repository.ErrorUserDoesNotExist);
      cbn [fst]; rewrite status_error; among. }
  destruct (String.eqb (HTTPMethod req) "DELETE").
  { unfold DeleteUser.
    destruct (String.eqb (index (QueryStringParameters req) "email") "");
      [cbn [fst]; rewrite status_error; among | ].
    destruct (repository.DeleteUser (userRepo h) _) as [[e | ] repo];
      [ | cbn [fst]; among].
    destruct (String.eqb e repository.ErrorUserDoesNotExist);
      cbn [fst]; rewrite status_error; among. }
  cbn [fst]. unfold UnhandledMethod. rewrite status_error. among.
Qed.

End MethodStatuses.

(** ** Reading twice *)

Section ReadTwice.
Import dynamodb dynamodbattribute repository repository.DynamoDBUserRepository.
Import events handlers.
Context `{Decoder}.

Lemma reliable_FetchUser repo email :
  reliable repo -> reliable (snd (FetchUser repo email)).
Proof.
  intros Hr. rewrite FetchUser_eq.
  destruct (fst (call (client repo)));
    [ | destruct (lookup email (table repo)) as [[u | k why] | ]];
    apply reliable_served; exact Hr.
Qed.

(** [FetchUsers] hands back the repository as it was, or once served. *)
Lemma FetchUsers_next repo limit key :
  snd (FetchUsers repo limit key) = repo
  \/ snd (FetchUsers repo limit key) = served repo.
Proof.
  unfold FetchUsers.
  destruct (if String.eqb key "" then (KeyNil, None) else UnmarshalKey key)
    as [startKey [e | ]]; [left; reflexivity | ].
  right.
  assert (Hc : snd (Scan (client repo) limit startKey) = snd (call (client repo))).
  { unfold Scan. destruct (call (client repo)) as [[e | ] c]; [reflexivity | ].
    destruct (limit <=? 0)%Z; [reflexivity | ]. destruct startKey; reflexivity. }
  unfold served. rewrite <- Hc.
  destruct (Scan (client repo) limit startKey) as [[[resItems resKey] err] c].
  cbn [snd].
  destruct err as [e | ]; [reflexivity | ].
  destruct (UnmarshalListOfMaps resItems) as [users [e | ]]; [reflexivity | ].
  destruct resKey; try reflexivity;
    destruct (MarshalKey _) as [keyBytes [e | ]]; reflexivity.
Qed.

(** With a store that answers, what the two fetches return is decided by the
    table. *)
Lemma FetchUser_by_table repo repo' email :
  answers repo -> answers repo' -> table repo = table repo' ->
  fst (FetchUser repo email) = fst (FetchUser repo' email).
Proof.
  intros Ha Ha' Ht. rewrite !FetchUser_eq. unfold answers in Ha, Ha'.
  rewrite Ha, Ha', Ht.
  destruct (lookup email (table repo')) as [[u | k why] | ]; reflexivity.
Qed.

Lemma Scan_by_table c c' limit start :
  fst (call c) = None -> fst (call c') = None -> items c = items c' ->
  fst (Scan c limit start) = fst (Scan c' limit start).
Proof.
  intros Ha Ha' Ht. unfold Scan.
  pose proof (call_items c) as Hi. pose proof (call_items c') as Hi'.
  destruct (call c) as [f d], (call c') as [f' d']. cbn [fst snd] in *. subst f f'.
  rewrite Hi, Hi', Ht. destruct (limit <=? 0)%Z; [reflexivity | ].
  destruct start; reflexivity.
Qed.

Lemma FetchUsers_by_table repo repo' limit key :
  answers repo -> answers repo' -> table repo = table repo' ->
  fst (FetchUsers repo limit key) = fst (FetchUsers repo' limit key).
Proof.
  intros Ha Ha' Ht. unfold FetchUsers.
  destruct (if String.eqb key "" then (KeyNil, None) else UnmarshalKey key)
    as [startKey [e | ]]; [reflexivity | ].
  pose proof (Scan_by_table (client repo) (client repo') limit startKey Ha Ha' Ht)
    as Hs.
  destruct (Scan (client repo) limit startKey) as [[[resItems resKey] err] c].
  destruct (Scan (client repo') limit startKey) as [[[resItems' resKey'] err'] c'].
  cbn [fst] in Hs. injection Hs as <- <- <-.
  destruct err as [e | ]; [reflexivity | ].
  destruct (UnmarshalListOfMaps resItems) as [users [e | ]]; [reflexivity | ].
  destruct resKey; try reflexivity;
    destruct (MarshalKey _) as [keyBytes [e | ]]; reflexivity.
Qed.

(** X21. Reading is idempotent: with a store that answers, a GET request,
    for one record or for a page, leaves the table as it was, and the same
    request served again is given the same response. *)
Theorem X21_get_twice (repo : t) (req : APIGatewayProxyRequest) :
  HTTPMethod req = "GET" ->
  reliable repo ->
  let out := main.handler (UserHandler.New repo) req in
  table (UserHandler.userRepo (snd out)) = table repo
  /\ fst (main.handler (snd out) req) = fst out.
Proof.
  intros Hm Hr out. subst out.
  rewrite !(handler_GET _ req Hm).
  destruct (decide (index (QueryStringParameters req) "email" = "")) as [He | He].
  - rewrite !(GetUser_page _ req He).
    cbn [fst snd UserHandler.New UserHandler.userRepo repository.FetchUsers implements].
    set (limit := page_limit (QueryStringParameters req)).
    set (key := index (QueryStringParameters req) "lastEvaluatedKey").
    split; [apply FetchUsers_table | ].
    assert (Hr1 : reliable (snd (FetchUsers repo limit key))).
    { destruct (FetchUsers_next repo limit key) as [-> | ->];
        [exact Hr | apply reliable_served; exact Hr]. }
    rewrite (FetchUsers_by_table (snd (FetchUsers repo limit key)) repo limit key
               (reliable_answers _ Hr1) (reliable_answers _ Hr)
               (FetchUsers_table repo limit key)).
    reflexivity.
  - rewrite !(GetUser_by_email _ req _ eq_refl He).
    cbn [fst snd UserHandler.New UserHandler.userRepo repository.FetchUser implements].
    set (email := index (QueryStringParameters req) "email").
    split; [apply FetchUser_table | ].
    rewrite (FetchUser_by_table (snd (FetchUser repo email)) repo email
               (reliable_answers _ (reliable_FetchUser repo email Hr))
               (reliable_answers _ Hr) (FetchUser_table repo email)).
    reflexivity.
Qed.

End ReadTwice.

Lemma X21_witness :
  let out := main.handler (handlers.UserHandler.New alice_repo)
               (get_request {[ "limit" := "1" ]}) in
  table (handlers.UserHandler.userRepo (snd out)) = table alice_repo
  /\ fst (main.handler (snd out) (get_request {[ "limit" := "1" ]})) = fst out.
Proof.
  apply (X21_get_twice alice_repo (get_request {[ "limit" := "1" ]}) eq_refl
           reliable_alice_repo).
Defined.

(** ** A page of records *)

Section PageOfRecords.
Import dynamodb dynamodbattribute repository repository.DynamoDBUserRepository.
Context `{Decoder}.

Lemma UnmarshalListOfMaps_all l us :
  UnmarshalListOfMaps l = (us, None) -> l = ItemUser <$> us.
Proof.
  revert us. induction l as [ | it l IH]; intros us; cbn [UnmarshalListOfMaps].
  - intros Heq. injection Heq as <-. reflexivity.
  - destruct it as [u | k why]; cbn [UnmarshalMap]; [ | discriminate].
    destruct (UnmarshalListOfMaps l) as [us' e]. intros Heq.
    injection Heq as <- ->. rewrite (IH us' eq_refl). reflexivity.
Qed.

Lemma after_sublist k l : after k l `sublist_of` l.
Proof.
  induction l as [ | x l IH]; cbn [after]; [constructor | ].
  destruct (String.eqb (key x) k); apply sublist_cons; [reflexivity | exact IH].
Qed.

Lemma Scan_page c limit start its k :
  fst (Scan c limit start) = ((its, k), None) ->
  (0 < limit)%Z
  /\ length its <= Z.to_nat limit
  /\ its `sublist_of` items c.
Proof.
  unfold Scan. pose proof (call_items c) as Hi.
  destruct (call c) as [[e | ] c']; cbn [fst snd] in *; [discriminate | ].
  destruct (Z.leb_spec limit 0); [discriminate | ].
  rewrite Hi.
  destruct start as [ | e | ]; cbn [fst]; try discriminate;
    intros Heq; injection Heq as <- _; (split; [lia | ]);
    (split; [rewrite length_take; lia | ]).
  - apply sublist_take.
  - etransitivity; [apply sublist_take | apply after_sublist].
Qed.

(** X22. When [FetchUsers] succeeds, the limit was positive, the records it
    returns are at most [limit], and they are records the table holds, in
    the order of the table: none is made up, repeated or moved. *)
Theorem X22_page_is_within_the_table
  (repo : t) (limit : Z) (key : string) (users : option (list User)) (token : string) :
  fst (FetchUsers repo limit key) = ((users, token), None) ->
  exists us,
    users = Some us
    /\ (0 < limit)%Z
    /\ (Z.of_nat (length us) <= limit)%Z
    /\ (ItemUser <$> us) `sublist_of` table repo.
Proof.
  unfold FetchUsers.
  destruct (if String.eqb key "" then (KeyNil, None) else UnmarshalKey key)
    as [startKey [e | ]]; [discriminate | ].
  pose proof (Scan_page (client repo) limit startKey) as Hs.
  destruct (Scan (client repo) limit startKey) as [[[resItems resKey] err] c].
  cbn [fst] in Hs.
  destruct err as [e | ]; [discriminate | ].
  destruct (Hs resItems resKey eq_refl) as (Hpos & Hlen & Hsub).
  destruct (UnmarshalListOfMaps resItems) as [us [e | ]] eqn:Hu; [discriminate | ].
  apply UnmarshalListOfMaps_all in Hu. subst resItems.
  rewrite length_fmap in Hlen.
  assert (Hgoal : exists us0, Some us = Some us0 /\ (0 < limit)%Z
                   /\ (Z.of_nat (length us0) <= limit)%Z
                   /\ (ItemUser <$> us0) `sublist_of` table repo).
  { exists us. repeat split; auto. lia. }
  destruct resKey; [ | destruct (MarshalKey _) as [kb [e | ]]
                     | destruct (MarshalKey _) as [kb [e | ]]];
    cbn [fst]; try discriminate; intros Heq; injection Heq as <- _; exact Hgoal.
Qed.

End PageOfRecords.

Lemma X22_witness :
  exists us,
    Some [alice] = Some us
    /\ (0 < 5)%Z
    /\ (Z.of_nat (length us) <= 5)%Z
    /\ (dynamodb.ItemUser <$> us) `sublist_of` table alice_repo.
Proof.
  apply (X22_page_is_within_the_table alice_repo 5 "" (Some [alice]) "").
  reflexivity.
Defined.
